(** * keras-text-cls: the TextCNN and TextRCNN model builders

  A shallow embedding of [keras_text_cls/model/text_cnn.py] and
  [keras_text_cls/model/text_rcnn.py].

  Both constructors assemble a Keras layer graph with the functional API:
  layer objects are created, then called on symbolic tensors, and every such
  call runs the framework's shape inference, which may raise.  The embedding
  keeps exactly that: a layer is a value of [Keras.layer], a symbolic tensor
  records the call that produced it together with its inferred shape, and
  [__init__] is a computation in the exception monad [Py.result].

  Numeric weights, and hence the floating-point values a model produces, are
  owned by the framework and are not represented; a call is modelled at the
  level of array shapes. *)

From Stdlib Require Import ZArith List String QArith Bool Lia.
Import ListNotations.

Close Scope Q_scope.
Local Open Scope Z_scope.
Set Warnings "-register-all".

(* ================================================================== *)
(** ** Python exceptions *)

Module Py.

Inductive exn : Type :=
| AssertionError                 (* a failed [assert] *)
| ConfigError (msg : string)     (* raised by [init_embedding_layer] *)
| ValueError (msg : string).     (* raised inside the framework *)

Inductive result (A : Type) : Type :=
| Ok (a : A)
| Raise (e : exn).

Arguments Ok {A} a.
Arguments Raise {A} e.

Definition bind {A B} (m : result A) (k : A -> result B) : result B :=
  match m with
  | Ok a => k a
  | Raise e => Raise e
  end.

Definition fmap {A B} (f : A -> B) (m : result A) : result B :=
  bind m (fun a => Ok (f a)).

Definition raises {A} (m : result A) : Prop := exists e, m = Raise e.


End Py.

Import Py.

Notation "x <- m ;; k" := (Py.bind m (fun x => k))
(at level 61, m at next level, right associativity).

(** [for x in l: ys.append(f(x))] where [f] may raise. *)
Fixpoint mapM {A B} (f : A -> result B) (l : list A) : result (list B) :=
match l with
| [] => Ok []
| a :: rest =>
    b <- f a ;;
    bs <- mapM f rest ;;
    Ok (b :: bs)
end.

(** [for y in l: x = f(x, y)] where [f] may raise. *)
Fixpoint foldM {A B} (f : A -> B -> result A) (x : A) (l : list B) : result A :=
match l with
| [] => Ok x
| y :: rest =>
    x' <- f x y ;;
    foldM f x' rest
end.

(** Python's [dropout > 0] on a number. *)
Definition Qgtb (x y : Q) : bool := negb (Qle_bool x y).

(* ================================================================== *)
(** ** The part of Keras the two files use *)

Module Keras.

(** A shape, without the leading batch axis (which is [None] in every
    symbolic tensor of these graphs).  Axis numbers passed to the framework
    count the batch axis, so axis 1 is the head of the list. *)
Definition shape := list Z.

Definition ndarray := list (list Q).

(** The layer classes imported by the two files, with the arguments the
    files pass.  The two [Lambda] layers wrap fixed backend calls.  An
    activation is carried as the name the files pass; the framework's lookup
    of that name when the layer is created, which rejects an unknown one, is
    not represented, so graphs are described for constructions that
    succeed. *)
Inductive layer : Type :=
| Embedding (input_dim output_dim : Z) (weights : option ndarray)
            (trainable : bool) (input_length : Z)
| Conv1D (filters kernel_size : Z) (activation : string)
| MaxPooling1D (pool_size : Z)
| Flatten
| Dropout (rate : Q)
| Dense (units : Z) (input_dim : option Z) (activation : string)
| LSTM (units : Z) (return_sequences go_backwards : bool)
| LambdaReverse          (* Lambda(lambda x: K.reverse(x, axes=1)) *)
| LambdaMax.             (* Lambda(lambda x: K.max(x, axis=1)) *)

(** A symbolic tensor: where it comes from, and its inferred shape. *)
Inductive tensor : Type :=
| Input (shp : shape) (dtype : string)
| Call (l : layer) (x : tensor) (shp : shape)
| Concat (xs : list tensor) (axis : Z) (shp : shape).

Definition shape_of (t : tensor) : shape :=
  match t with
  | Input s _ => s
  | Call _ _ s => s
  | Concat _ _ s => s
  end.

(** What differs between releases of the framework and matters here:
    whether the [Dropout] constructor accepts a rate (older releases clamp
    any number into [0,1], newer ones raise outside it), and how many
    tensors a merge layer wants at least (two in older releases, one in newer
    ones). *)
Record framework : Type := {
  dropout_rate_ok : Q -> bool;
  merge_min_inputs : nat
}.

Fixpoint shape_eqb (s1 s2 : shape) : bool :=
  match s1, s2 with
  | [], [] => true
  | d1 :: r1, d2 :: r2 => (d1 =? d2) && shape_eqb r1 r2
  | _, _ => false
  end.

Definition prod (s : shape) : Z := fold_right Z.mul 1 s.

(** [conv_utils.conv_output_length] for [padding='valid'], dilation 1. *)
Definition conv_output_length (input_length filter_size stride : Z) : Z :=
  (input_length - filter_size + 1 + stride - 1) / stride.

Definition bad_shape {A} : result A := Raise (ValueError "incompatible shape"%string).

(** Shape inference of one layer call.  Windows must be positive and fit
    into the sequence: a convolution or a pooling whose window exceeds the
    number of steps has no output position, which the framework rejects. *)
Definition output_shape (l : layer) (s : shape) : result shape :=
  match l, s with
  | Embedding _ output_dim _ _ input_length, [len] =>
      if len =? input_length then Ok [len; output_dim] else bad_shape
  | Conv1D filters kernel_size _, [steps; _] =>
      if (1 <=? kernel_size) && (kernel_size <=? steps)
      then Ok [conv_output_length steps kernel_size 1; filters]
      else bad_shape
  | MaxPooling1D pool_size, [steps; features] =>
      if (1 <=? pool_size) && (pool_size <=? steps)
      then Ok [conv_output_length steps pool_size pool_size; features]
      else bad_shape
  | Flatten, _ :: _ => Ok [prod s]
  | Dropout _, _ => Ok s
  | Dense units _ _, _ :: _ => Ok (removelast s ++ [units])
  | LSTM units return_sequences _, [steps; _] =>
      Ok (if return_sequences then [steps; units] else [units])
  | LambdaReverse, _ :: _ => Ok s
  | LambdaMax, _ :: rest => Ok rest
  | _, _ => bad_shape
  end.

(** [layer(x)] *)
Definition call (l : layer) (x : tensor) : result tensor :=
  s <- output_shape l (shape_of x) ;;
  Ok (Call l x s).

(** The [Dropout(rate)] constructor. *)
Definition new_Dropout (fw : framework) (rate : Q) : result layer :=
  if dropout_rate_ok fw rate then Ok (Dropout rate)
  else Raise (ValueError "invalid dropout rate"%string).

(** Joining two shapes along position [i]: all other positions agree. *)
Fixpoint merge_at (i : nat) (s1 s2 : shape) : option shape :=
  match i, s1, s2 with
  | O, d1 :: r1, d2 :: r2 =>
      if shape_eqb r1 r2 then Some (d1 + d2 :: r1) else None
  | S j, d1 :: r1, d2 :: r2 =>
      if d1 =? d2 then option_map (cons d1) (merge_at j r1 r2) else None
  | _, _, _ => None
  end.

Definition merge_all (i : nat) (first : shape) (rest : list shape) : option shape :=
  fold_left (fun acc s => match acc with
                          | Some a => merge_at i a s
                          | None => None
                          end) rest (Some first).

(** [concatenate(xs, axis=axis)], for an axis after the batch axis. *)
Definition concatenate (fw : framework) (xs : list tensor) (axis : Z)
  : result tensor :=
  if (List.length xs <? merge_min_inputs fw)%nat then bad_shape
  else if axis <? 1 then bad_shape
  else match map shape_of xs with
       | [] => bad_shape
       | first :: rest =>
           if (Z.to_nat (axis - 1) <? List.length first)%nat then
             match merge_all (Z.to_nat (axis - 1)) first rest with
             | Some s => Ok (Concat xs axis s)
             | None => bad_shape
             end
           else bad_shape
       end.

(** [keras.Model(input, output)] *)
Record Model : Type := {
  inputs : tensor;
  outputs : tensor
}.

(** [model(x)] on an array of shape [s]: the array must fit the model's
    input; the result has the batch size of [x] and the model's output
    shape. *)
Definition Model_call (m : Model) (s : shape) : result shape :=
  match s with
  | [] => bad_shape
  | batch :: rest =>
      if shape_eqb rest (shape_of (inputs m))
      then Ok (batch :: shape_of (outputs m))
      else bad_shape
  end.

(** The layers a tensor was computed with, inputs first. *)
Fixpoint layers_of (t : tensor) : list layer :=
  match t with
  | Input _ _ => []
  | Call l x _ => layers_of x ++ [l]
  | Concat xs _ _ => flat_map layers_of xs
  end.

(** Walk back from a tensor through single-input layer calls to the merge
    that feeds them. *)
Fixpoint merged (t : tensor) : option tensor :=
  match t with
  | Input _ _ => None
  | Call _ x _ => merged x
  | Concat _ _ _ => Some t
  end.


Definition is_pooling (l : layer) : bool :=
  match l with
  | MaxPooling1D _ | LambdaMax => true
  | _ => false
  end.

Definition is_Dropout (l : layer) : bool :=
  match l with
  | Dropout _ => true
  | _ => false
  end.

Definition is_Dense (l : layer) : bool :=
  match l with
  | Dense _ _ _ => true
  | _ => false
  end.


End Keras.

(* ================================================================== *)
(** ** keras_text_cls.model.utils *)

Module Utils.

Import Keras.

Definition matrix_rows (m : ndarray) : Z := Z.of_nat (List.length m).
Definition matrix_cols (m : ndarray) : Z := Z.of_nat (List.length (hd [] m)).

(** Modelled from the spec: [init_embedding_layer] of
    [keras_text_cls/model/utils.py] is called by both constructors but is
    not among the sources.  The specification (section 4.1) says: with a
    matrix, vocabulary size and dimension are inferred from it and its
    entries are the initial, optionally frozen weights; without one, a fresh
    table of size (vocab_size, embedding_dim) is created; it is a
    construction error when the matrix is absent and vocab_size is not
    provided, or when trainable is False while the matrix is absent. *)
Definition init_embedding_layer
    (embedding_matrix : option ndarray) (embedding_dim : Z)
    (embedding_vocab_size : option Z) (embedding_trainable : bool)
    (max_seq_len : Z) : result layer :=
  match embedding_matrix with
  | Some m =>
      Ok (Embedding (matrix_rows m) (matrix_cols m) (Some m)
                    embedding_trainable max_seq_len)
  | None =>
      match embedding_vocab_size with
      | None => Raise (ConfigError "embedding_vocab_size must be set"%string)
      | Some vocab_size =>
          if embedding_trainable
          then Ok (Embedding vocab_size embedding_dim None true max_seq_len)
          else Raise (ConfigError "embedding_trainable must be True"%string)
      end
  end.

(** The hidden-layer loop, which the two constructors share word for word:
<<
    layer_hiddens = []
    prev_input_dim = embedding_dim
    for n in num_hidden_units:
        layer_hiddens.append(Dense(n, input_dim=prev_input_dim, activation=hidden_activation))
        if dropout > 0:
            layer_hiddens.append(Dropout(dropout))
        prev_input_dim = n
>> *)
Fixpoint hidden_layers (fw : framework) (hidden_activation : string)
    (dropout : Q) (prev_input_dim : Z) (num_hidden_units : list Z)
  : result (list layer) :=
  match num_hidden_units with
  | [] => Ok []
  | n :: rest =>
      let dense := Dense n (Some prev_input_dim) hidden_activation in
      drop <- (if Qgtb dropout 0
               then d <- new_Dropout fw dropout ;; Ok [d]
               else Ok []) ;;
      more <- hidden_layers fw hidden_activation dropout n rest ;;
      Ok (dense :: drop ++ more)
  end.

(** [for hidden in layer_hiddens: x = hidden(x)] *)
Definition apply_layers (layers : list layer) (x : tensor) : result tensor :=
  foldM (fun x l => call l x) x layers.

Definition output_activation (multi_label : bool) : string :=
  if multi_label then "sigmoid"%string else "softmax"%string.

End Utils.

(* ================================================================== *)
(** ** text_cnn.py *)

Module TextCNN.

Import Keras Utils.

(** The parameters of [TextCNN.__init__]. *)
Record args : Type := {
  num_classes : Z;
  embedding_dim : Z;
  embedding_matrix : option ndarray;
  embedding_trainable : bool;
  embedding_vocab_size : option Z;
  num_filters : Z;
  filter_sizes : list Z;
  pooling_strategy : string;
  max_seq_len : Z;
  num_hidden_units : list Z;
  hidden_activation : string;
  dropout : Q;
  multi_label : bool
}.

(** [TextCNN(num_classes)]: every other parameter at its default. *)
Definition defaults (n : Z) : args := {|
  num_classes := n;
  embedding_dim := 128;
  embedding_matrix := None;
  embedding_trainable := false;
  embedding_vocab_size := None;
  num_filters := 50;
  filter_sizes := [2; 3; 4; 5];
  pooling_strategy := "REDUCE_MAX"%string;
  max_seq_len := 300;
  num_hidden_units := [];
  hidden_activation := "relu"%string;
  dropout := 1 # 2;
  multi_label := true
|}.

(** The attributes [__init__] sets on [self]. *)
Record t : Type := {
  self_num_classes : Z;
  self_embedding_dim : Z;
  self_embedding_matrix : option ndarray;
  self_embedding_trainable : bool;
  self_pooling_strategy : string;
  self_max_seq_len : Z;
  self_num_hidden_units : list Z;
  self_hidden_activation : string;
  self_dropout : Q;
  self_multi_label : bool;
  self_num_filters : Z;
  self_filter_sizes : list Z;
  self_model : Model
}.

(** One element of [layer_convs]. *)
Definition conv_layers (num_filters max_seq_len fsz : Z) : layer * layer * layer :=
  (Conv1D num_filters fsz "relu"%string,
   MaxPooling1D (max_seq_len - fsz + 1),
   Flatten).

(** The body of [for (l_conv, l_pool, l_flatten) in layer_convs]. *)
Definition apply_conv_layers (x : tensor) (ls : layer * layer * layer)
  : result tensor :=
  let '(l_conv, l_pool, l_flatten) := ls in
  conv_f <- call l_conv x ;;
  conv_f <- call l_pool conv_f ;;
  call l_flatten conv_f.

Definition __init__ (fw : framework) (a : args) : result t :=
  let layer_input := Input [max_seq_len a] "int32"%string in
  layer_embedding <-
    init_embedding_layer (embedding_matrix a) (embedding_dim a)
      (embedding_vocab_size a) (embedding_trainable a) (max_seq_len a) ;;
  let layer_convs :=
    map (conv_layers (num_filters a) (max_seq_len a)) (filter_sizes a) in
  (* [layer_dropout] is bound exactly when [dropout > 0] *)
  layer_dropout <-
    (if Qgtb (dropout a) 0
     then d <- new_Dropout fw (dropout a) ;; Ok (Some d)
     else Ok None) ;;
  layer_hiddens <-
    hidden_layers fw (hidden_activation a) (dropout a) (embedding_dim a)
      (num_hidden_units a) ;;
  let layer_output :=
    Dense (num_classes a) None (output_activation (multi_label a)) in
  let input := layer_input in
  x <- call layer_embedding input ;;
  convs <- mapM (apply_conv_layers x) layer_convs ;;
  x <- concatenate fw convs 1 ;;
  x <- match layer_dropout with
       | Some d => call d x
       | None => Ok x
       end ;;
  x <- apply_layers layer_hiddens x ;;
  output <- call layer_output x ;;
  Ok {| self_num_classes := num_classes a;
        self_embedding_dim := embedding_dim a;
        self_embedding_matrix := embedding_matrix a;
        self_embedding_trainable := embedding_trainable a;
        self_pooling_strategy := pooling_strategy a;
        self_max_seq_len := max_seq_len a;
        self_num_hidden_units := num_hidden_units a;
        self_hidden_activation := hidden_activation a;
        self_dropout := dropout a;
        self_multi_label := multi_label a;
        self_num_filters := num_filters a;
        self_filter_sizes := filter_sizes a;
        self_model := {| inputs := input; outputs := output |} |}.

(** What the specification says one branch computes from the embedded input
    [x], for window size [w]: convolution, pooling over all remaining
    positions, flattening. *)
Definition branch (a : args) (x : tensor) (w : Z) : tensor :=
  Call Flatten
    (Call (MaxPooling1D (max_seq_len a - w + 1))
       (Call (Conv1D (num_filters a) w "relu"%string) x
          [max_seq_len a - w + 1; num_filters a])
       [1; num_filters a])
    [num_filters a].

(** [call(self, inputs)], on the shape of [inputs]; the instance is threaded
    through so that what a call leaves behind can be stated. *)
Definition call (self : t) (inputs : shape) : t * result shape :=
  if (List.length inputs =? 2)%nat
  then (self, Model_call (self_model self) inputs)
  else (self, Raise AssertionError).

(** A sequence of calls on one instance. *)
Fixpoint calls (self : t) (inputs : list shape) : t * list (result shape) :=
  match inputs with
  | [] => (self, [])
  | i :: rest =>
      let '(self1, r) := call self i in
      let '(self2, rs) := calls self1 rest in
      (self2, r :: rs)
  end.

Definition with_pooling_strategy (s : string) (a : args) : args := {|
  num_classes := num_classes a;
  embedding_dim := embedding_dim a;
  embedding_matrix := embedding_matrix a;
  embedding_trainable := embedding_trainable a;
  embedding_vocab_size := embedding_vocab_size a;
  num_filters := num_filters a;
  filter_sizes := filter_sizes a;
  pooling_strategy := s;
  max_seq_len := max_seq_len a;
  num_hidden_units := num_hidden_units a;
  hidden_activation := hidden_activation a;
  dropout := dropout a;
  multi_label := multi_label a
|}.

Definition with_dropout (d : Q) (a : args) : args := {|
  num_classes := num_classes a;
  embedding_dim := embedding_dim a;
  embedding_matrix := embedding_matrix a;
  embedding_trainable := embedding_trainable a;
  embedding_vocab_size := embedding_vocab_size a;
  num_filters := num_filters a;
  filter_sizes := filter_sizes a;
  pooling_strategy := pooling_strategy a;
  max_seq_len := max_seq_len a;
  num_hidden_units := num_hidden_units a;
  hidden_activation := hidden_activation a;
  dropout := d;
  multi_label := multi_label a
|}.

End TextCNN.

(* ================================================================== *)
(** ** text_rcnn.py *)

Module TextRCNN.

Import Keras Utils.

(** The parameters of [TextRCNN.__init__]. *)
Record args : Type := {
  num_classes : Z;
  embedding_dim : Z;
  embedding_matrix : option ndarray;
  embedding_trainable : bool;
  embedding_vocab_size : option Z;
  rnn_hidden_units : Z;
  conv_hidden_units : Z;
  pooling_strategy : string;
  max_seq_len : Z;
  num_hidden_units : list Z;
  hidden_activation : string;
  dropout : Q;
  multi_label : bool
}.

(** [TextRCNN(num_classes)]: every other parameter at its default. *)
Definition defaults (n : Z) : args := {|
  num_classes := n;
  embedding_dim := 128;
  embedding_matrix := None;
  embedding_trainable := false;
  embedding_vocab_size := None;
  rnn_hidden_units := 100;
  conv_hidden_units := 100;
  pooling_strategy := "REDUCE_MAX"%string;
  max_seq_len := 300;
  num_hidden_units := [100];
  hidden_activation := "relu"%string;
  dropout := 1 # 2;
  multi_label := true
|}.

(** The attributes [__init__] sets on [self]; [conv_hidden_units] is not
    among them. *)
Record t : Type := {
  self_num_classes : Z;
  self_embedding_dim : Z;
  self_embedding_matrix : option ndarray;
  self_embedding_trainable : bool;
  self_pooling_strategy : string;
  self_max_seq_len : Z;
  self_num_hidden_units : list Z;
  self_hidden_activation : string;
  self_dropout : Q;
  self_multi_label : bool;
  self_rnn_hidden_units : Z;
  self_model : Model
}.

Definition __init__ (fw : framework) (a : args) : result t :=
  let layer_input := Input [max_seq_len a] "int32"%string in
  layer_embedding <-
    init_embedding_layer (embedding_matrix a) (embedding_dim a)
      (embedding_vocab_size a) (embedding_trainable a) (max_seq_len a) ;;
  let layer_lstm_forward := LSTM (rnn_hidden_units a) true false in
  let layer_lstm_backward := LSTM (rnn_hidden_units a) true true in
  (* output of layer_lstm_backward was in reversed order *)
  let layer_reverse := LambdaReverse in
  let layer_conv := Conv1D (conv_hidden_units a) 1 "tanh"%string in
  let layer_max_pool := LambdaMax in
  layer_hiddens <-
    hidden_layers fw (hidden_activation a) (dropout a) (embedding_dim a)
      (num_hidden_units a) ;;
  let layer_output :=
    Dense (num_classes a) None (output_activation (multi_label a)) in
  let input := layer_input in
  x <- call layer_embedding input ;;
  forward <- call layer_lstm_forward x ;;
  backward <- call layer_lstm_backward x ;;
  backward <- call layer_reverse backward ;;
  together <- concatenate fw [forward; x; backward] 2 ;;
  semantic <- call layer_conv together ;;
  x <- call layer_max_pool semantic ;;
  x <- apply_layers layer_hiddens x ;;
  output <- call layer_output x ;;
  Ok {| self_num_classes := num_classes a;
        self_embedding_dim := embedding_dim a;
        self_embedding_matrix := embedding_matrix a;
        self_embedding_trainable := embedding_trainable a;
        self_pooling_strategy := pooling_strategy a;
        self_max_seq_len := max_seq_len a;
        self_num_hidden_units := num_hidden_units a;
        self_hidden_activation := hidden_activation a;
        self_dropout := dropout a;
        self_multi_label := multi_label a;
        self_rnn_hidden_units := rnn_hidden_units a;
        self_model := {| inputs := input; outputs := output |} |}.

(** What the specification says is computed from the embedded input [x] of
    feature width [d], up to and including the pooling over the sequence. *)
Definition together (a : args) (x : tensor) (d : Z) : tensor :=
  let steps := max_seq_len a in
  let units := rnn_hidden_units a in
  let forward := Call (LSTM units true false) x [steps; units] in
  let backward :=
    Call LambdaReverse (Call (LSTM units true true) x [steps; units])
      [steps; units] in
  Concat [forward; x; backward] 2 [steps; units + d + units].

Definition pooled (a : args) (x : tensor) (d : Z) : tensor :=
  Call LambdaMax
    (Call (Conv1D (conv_hidden_units a) 1 "tanh"%string) (together a x d)
       [max_seq_len a; conv_hidden_units a])
    [conv_hidden_units a].

(** [call(self, inputs)], on the shape of [inputs]. *)
Definition call (self : t) (inputs : shape) : t * result shape :=
  if (List.length inputs =? 2)%nat
  then (self, Model_call (self_model self) inputs)
  else (self, Raise AssertionError).

(** A sequence of calls on one instance. *)
Fixpoint calls (self : t) (inputs : list shape) : t * list (result shape) :=
  match inputs with
  | [] => (self, [])
  | i :: rest =>
      let '(self1, r) := call self i in
      let '(self2, rs) := calls self1 rest in
      (self2, r :: rs)
  end.

Definition with_pooling_strategy (s : string) (a : args) : args := {|
  num_classes := num_classes a;
  embedding_dim := embedding_dim a;
  embedding_matrix := embedding_matrix a;
  embedding_trainable := embedding_trainable a;
  embedding_vocab_size := embedding_vocab_size a;
  rnn_hidden_units := rnn_hidden_units a;
  conv_hidden_units := conv_hidden_units a;
  pooling_strategy := s;
  max_seq_len := max_seq_len a;
  num_hidden_units := num_hidden_units a;
  hidden_activation := hidden_activation a;
  dropout := dropout a;
  multi_label := multi_label a
|}.

Definition with_dropout (d : Q) (a : args) : args := {|
  num_classes := num_classes a;
  embedding_dim := embedding_dim a;
  embedding_matrix := embedding_matrix a;
  embedding_trainable := embedding_trainable a;
  embedding_vocab_size := embedding_vocab_size a;
  rnn_hidden_units := rnn_hidden_units a;
  conv_hidden_units := conv_hidden_units a;
  pooling_strategy := pooling_strategy a;
  max_seq_len := max_seq_len a;
  num_hidden_units := num_hidden_units a;
  hidden_activation := hidden_activation a;
  dropout := d;
  multi_label := multi_label a
|}.

End TextRCNN.

(* ================================================================== *)
(** ** Sample configurations *)

(** A release that rejects dropout rates outside [0,1] and merges one tensor
    or more, and one that clamps the rate and wants two. *)
Definition keras_strict : Keras.framework := {|
  Keras.dropout_rate_ok := fun r => Qle_bool 0 r && Qle_bool r 1;
  Keras.merge_min_inputs := 1
|}.


(** num_classes=3, max_seq_len=10, filter_sizes=[2,3], num_filters=4, from
    the specification's scenarios, with a vocabulary of 20 tokens. *)
Definition cnn_small : TextCNN.args := {|
  TextCNN.num_classes := 3;
  TextCNN.embedding_dim := 128;
  TextCNN.embedding_matrix := None;
  TextCNN.embedding_trainable := true;
  TextCNN.embedding_vocab_size := Some 20;
  TextCNN.num_filters := 4;
  TextCNN.filter_sizes := [2; 3];
  TextCNN.pooling_strategy := "REDUCE_MAX"%string;
  TextCNN.max_seq_len := 10;
  TextCNN.num_hidden_units := [7];
  TextCNN.hidden_activation := "relu"%string;
  TextCNN.dropout := 1 # 2;
  TextCNN.multi_label := true
|}.

(** rnn_hidden_units=8, conv_hidden_units=6, max_seq_len=5. *)
Definition rcnn_small : TextRCNN.args := {|
  TextRCNN.num_classes := 3;
  TextRCNN.embedding_dim := 128;
  TextRCNN.embedding_matrix := None;
  TextRCNN.embedding_trainable := true;
  TextRCNN.embedding_vocab_size := Some 20;
  TextRCNN.rnn_hidden_units := 8;
  TextRCNN.conv_hidden_units := 6;
  TextRCNN.pooling_strategy := "REDUCE_MAX"%string;
  TextRCNN.max_seq_len := 5;
  TextRCNN.num_hidden_units := [100];
  TextRCNN.hidden_activation := "relu"%string;
  TextRCNN.dropout := 1 # 2;
  TextRCNN.multi_label := true
|}.


(** A window of 11 tokens over sequences of 10. *)
Definition cnn_wide_filter : TextCNN.args := {|
  TextCNN.num_classes := 3;
  TextCNN.embedding_dim := 128;
  TextCNN.embedding_matrix := None;
  TextCNN.embedding_trainable := true;
  TextCNN.embedding_vocab_size := Some 20;
  TextCNN.num_filters := 4;
  TextCNN.filter_sizes := [2; 11];
  TextCNN.pooling_strategy := "REDUCE_MAX"%string;
  TextCNN.max_seq_len := 10;
  TextCNN.num_hidden_units := [7];
  TextCNN.hidden_activation := "relu"%string;
  TextCNN.dropout := 1 # 2;
  TextCNN.multi_label := true
|}.

(** No hidden layers, and a dropout rate of 2. *)
Definition rcnn_no_hidden : TextRCNN.args := {|
  TextRCNN.num_classes := 3;
  TextRCNN.embedding_dim := 128;
  TextRCNN.embedding_matrix := None;
  TextRCNN.embedding_trainable := true;
  TextRCNN.embedding_vocab_size := Some 20;
  TextRCNN.rnn_hidden_units := 8;
  TextRCNN.conv_hidden_units := 6;
  TextRCNN.pooling_strategy := "REDUCE_MAX"%string;
  TextRCNN.max_seq_len := 5;
  TextRCNN.num_hidden_units := [];
  TextRCNN.hidden_activation := "relu"%string;
  TextRCNN.dropout := 2;
  TextRCNN.multi_label := true
|}.

Definition cnn_model (r : result TextCNN.t) : result Keras.Model :=
  Py.fmap TextCNN.self_model r.

Definition rcnn_model (r : result TextRCNN.t) : result Keras.Model :=
  Py.fmap TextRCNN.self_model r.

(* ================================================================== *)
(** ** Reading a built graph *)

(** The single-input layer calls that lead to a tensor from the nearest merge
    (or from the input), first call first, each with the shape it produced. *)
Fixpoint trail (t : Keras.tensor) : list (Keras.layer * Keras.shape) :=
  match t with
  | Keras.Input _ _ => []
  | Keras.Concat _ _ _ => []
  | Keras.Call l x s => trail x ++ [(l, s)]
  end.

(** What the hidden-layer loop appends when no constructor raises: for each
    [n], a Dense layer whose declared [input_dim] is the previous [n]
    ([prev] for the first), followed by a Dropout layer when [dropout > 0]. *)
Fixpoint dense_stack (act : string) (dr : Q) (prev : Z) (units : list Z)
  : list Keras.layer :=
  match units with
  | [] => []
  | n :: rest =>
      Keras.Dense n (Some prev) act
      :: (if Qgtb dr 0 then [Keras.Dropout dr] else [])
         ++ dense_stack act dr n rest
  end.

(** The same layers, each with the shape it produces on a vector. *)
Fixpoint dense_trail (act : string) (dr : Q) (prev : Z) (units : list Z)
  : list (Keras.layer * Keras.shape) :=
  match units with
  | [] => []
  | n :: rest =>
      (Keras.Dense n (Some prev) act, [n])
      :: (if Qgtb dr 0 then [(Keras.Dropout dr, [n])] else [])
         ++ dense_trail act dr n rest
  end.

(** Replace the activation of the layer that produced the output. *)
Definition set_output_activation (act : string) (m : Keras.Model)
  : Keras.Model :=
  {| Keras.inputs := Keras.inputs m;
     Keras.outputs :=
       match Keras.outputs m with
       | Keras.Call (Keras.Dense units d _) x s =>
           Keras.Call (Keras.Dense units d act) x s
       | t => t
       end |}.

Definition with_multi_label_cnn (b : bool) (a : TextCNN.args)
  : TextCNN.args := {|
  TextCNN.num_classes := TextCNN.num_classes a;
  TextCNN.embedding_dim := TextCNN.embedding_dim a;
  TextCNN.embedding_matrix := TextCNN.embedding_matrix a;
  TextCNN.embedding_trainable := TextCNN.embedding_trainable a;
  TextCNN.embedding_vocab_size := TextCNN.embedding_vocab_size a;
  TextCNN.num_filters := TextCNN.num_filters a;
  TextCNN.filter_sizes := TextCNN.filter_sizes a;
  TextCNN.pooling_strategy := TextCNN.pooling_strategy a;
  TextCNN.max_seq_len := TextCNN.max_seq_len a;
  TextCNN.num_hidden_units := TextCNN.num_hidden_units a;
  TextCNN.hidden_activation := TextCNN.hidden_activation a;
  TextCNN.dropout := TextCNN.dropout a;
  TextCNN.multi_label := b
|}.

Definition with_multi_label_rcnn (b : bool) (a : TextRCNN.args)
  : TextRCNN.args := {|
  TextRCNN.num_classes := TextRCNN.num_classes a;
  TextRCNN.embedding_dim := TextRCNN.embedding_dim a;
  TextRCNN.embedding_matrix := TextRCNN.embedding_matrix a;
  TextRCNN.embedding_trainable := TextRCNN.embedding_trainable a;
  TextRCNN.embedding_vocab_size := TextRCNN.embedding_vocab_size a;
  TextRCNN.rnn_hidden_units := TextRCNN.rnn_hidden_units a;
  TextRCNN.conv_hidden_units := TextRCNN.conv_hidden_units a;
  TextRCNN.pooling_strategy := TextRCNN.pooling_strategy a;
  TextRCNN.max_seq_len := TextRCNN.max_seq_len a;
  TextRCNN.num_hidden_units := TextRCNN.num_hidden_units a;
  TextRCNN.hidden_activation := TextRCNN.hidden_activation a;
  TextRCNN.dropout := TextRCNN.dropout a;
  TextRCNN.multi_label := b
|}.

(** No window sizes at all. *)
Definition cnn_no_filters : TextCNN.args := {|
  TextCNN.num_classes := 3;
  TextCNN.embedding_dim := 128;
  TextCNN.embedding_matrix := None;
  TextCNN.embedding_trainable := true;
  TextCNN.embedding_vocab_size := Some 20;
  TextCNN.num_filters := 4;
  TextCNN.filter_sizes := [];
  TextCNN.pooling_strategy := "REDUCE_MAX"%string;
  TextCNN.max_seq_len := 10;
  TextCNN.num_hidden_units := [7];
  TextCNN.hidden_activation := "relu"%string;
  TextCNN.dropout := 1 # 2;
  TextCNN.multi_label := true
|}.

(* ================================================================== *)
(** * Properties *)

(** ** The exception monad *)

Lemma bind_Ok_inv {A B} (m : result A) (k : A -> result B) (b : B) :
  Py.bind m k = Ok b -> exists a, m = Ok a /\ k a = Ok b.
Proof.
  destruct m as [a | e]; simpl; intros H.
  - exists a. split; [reflexivity | exact H].
  - discriminate H.
Qed.

Lemma bind_raises_left {A B} (m : result A) (k : A -> result B) :
  raises m -> raises (Py.bind m k).
Proof.
  intros [e He]. exists e. rewrite He. reflexivity.
Qed.

Lemma bind_raises_right {A B} (m : result A) (k : A -> result B) :
  (forall a, raises (k a)) -> raises (Py.bind m k).
Proof.
  intros Hk. destruct m as [a | e]; simpl.
  - apply Hk.
  - exists e. reflexivity.
Qed.

Lemma raises_not_Ok {A} (m : result A) (a : A) : raises m -> m <> Ok a.
Proof.
  intros [e He] H. rewrite He in H. discriminate H.
Qed.

(** Peel the first step off a computation known to succeed. *)
Tactic Notation "step" hyp(H) :=
  match type of H with
  | Py.bind ?m _ = Ok _ =>
      let E := fresh "E" in
      destruct m eqn:E; [cbn [Py.bind] in H | discriminate H]
  end.

Tactic Notation "step" hyp(H) "as" ident(x) ident(E) :=
  match type of H with
  | Py.bind ?m _ = Ok _ =>
      destruct m as [x |] eqn:E; [cbn [Py.bind] in H | discriminate H]
  end.

Lemma mapM_raises {A B} (f : A -> result B) (l : list A) (a : A) :
  In a l -> raises (f a) -> raises (mapM f l).
Proof.
  induction l as [| b rest IH]; simpl; intros Hin Hf.
  - contradiction.
  - destruct Hin as [Hba | Hin].
    + apply bind_raises_left. rewrite Hba. exact Hf.
    + apply bind_raises_right. intros ?.
      apply bind_raises_left. apply IH; assumption.
Qed.

Lemma mapM_map {A B C} (f : B -> result C) (h : A -> B) (l : list A) :
  mapM f (map h l) = mapM (fun a => f (h a)) l.
Proof.
  induction l as [| a rest IH]; simpl.
  - reflexivity.
  - rewrite IH. reflexivity.
Qed.

Lemma mapM_Ok_inv {A B} (f : A -> result B) (g : A -> B) (P : A -> Prop)
    (l : list A) (bs : list B) :
  (forall a b, f a = Ok b -> b = g a /\ P a) ->
  mapM f l = Ok bs -> bs = map g l /\ Forall P l.
Proof.
  intros Hf. revert bs.
  induction l as [| a rest IH]; simpl; intros bs H.
  - inversion H. split; [reflexivity | constructor].
  - step H. step H. inversion H; subst.
    destruct (Hf _ _ E) as [-> Pa].
    destruct (IH _ eq_refl) as [-> Prest].
    split; [reflexivity | constructor; assumption].
Qed.

(** ** Shapes *)

Lemma shape_eqb_refl (s : Keras.shape) : Keras.shape_eqb s s = true.
Proof.
  induction s as [| d r IH]; simpl.
  - reflexivity.
  - rewrite Z.eqb_refl, IH. reflexivity.
Qed.

Lemma shape_eqb_eq (s1 s2 : Keras.shape) :
  Keras.shape_eqb s1 s2 = true -> s1 = s2.
Proof.
  revert s2. induction s1 as [| d1 r1 IH]; intros [| d2 r2]; simpl;
    try discriminate; try reflexivity.
  intros H. apply andb_prop in H. destruct H as [Hd Hr].
  apply Z.eqb_eq in Hd. f_equal; [exact Hd | apply IH; exact Hr].
Qed.

Lemma conv_output_length_stride1 (steps k : Z) :
  Keras.conv_output_length steps k 1 = steps - k + 1.
Proof.
  unfold Keras.conv_output_length. rewrite Z.div_1_r. lia.
Qed.

(** A pooling window as long as the sequence leaves one position. *)
Lemma conv_output_length_whole (steps : Z) :
  1 <= steps -> Keras.conv_output_length steps steps steps = 1.
Proof.
  intros H. unfold Keras.conv_output_length.
  replace (steps - steps + 1 + steps - 1) with steps by lia.
  apply Z.div_same. lia.
Qed.

Lemma prod_single_position (n : Z) : Keras.prod [1; n] = n.
Proof.
  unfold Keras.prod. cbn [fold_right]. lia.
Qed.

Lemma merge_all_vectors (n : Z) (acc : Z) (l : list Keras.shape) :
  Forall (fun s => s = [n]) l ->
  Keras.merge_all 0 [acc] l = Some [acc + n * Z.of_nat (List.length l)].
Proof.
  unfold Keras.merge_all. revert acc.
  induction l as [| s rest IH]; intros acc Hall.
  - simpl. f_equal. f_equal. lia.
  - inversion Hall as [| ? ? Hs Hrest]; subst.
    cbn [fold_left Keras.merge_at Keras.shape_eqb].
    rewrite IH by assumption.
    f_equal. f_equal. cbn [List.length]. lia.
Qed.

(** ** The embedding layer and the dense stack *)

Lemma init_embedding_layer_inv (m : option Keras.ndarray) (d : Z)
    (v : option Z) (tr : bool) (steps : Z) (emb : Keras.layer) :
  Utils.init_embedding_layer m d v tr steps = Ok emb ->
  exists vocab dim w tr',
    emb = Keras.Embedding vocab dim w tr' steps /\
    (m = None -> dim = d) /\
    (forall mat, m = Some mat -> dim = Utils.matrix_cols mat).
Proof.
  unfold Utils.init_embedding_layer.
  destruct m as [mat |].
  - intros H. inversion H; subst. do 4 eexists.
    split; [reflexivity | split].
    + discriminate.
    + intros mat' E. inversion E. reflexivity.
  - destruct v as [vocab |]; [| discriminate].
    destruct tr; [| discriminate].
    intros H. inversion H; subst. do 4 eexists.
    split; [reflexivity | split].
    + reflexivity.
    + discriminate.
Qed.

Lemma call_Embedding (vocab dim : Z) (w : option Keras.ndarray) (tr : bool)
    (steps : Z) (dtype : string) :
  Keras.call (Keras.Embedding vocab dim w tr steps)
             (Keras.Input [steps] dtype)
  = Ok (Keras.Call (Keras.Embedding vocab dim w tr steps)
                   (Keras.Input [steps] dtype) [steps; dim]).
Proof.
  unfold Keras.call. simpl. rewrite Z.eqb_refl. reflexivity.
Qed.

Lemma call_inv (l : Keras.layer) (x y : Keras.tensor) :
  Keras.call l x = Ok y ->
  exists s, Keras.output_shape l (Keras.shape_of x) = Ok s /\
            y = Keras.Call l x s.
Proof.
  unfold Keras.call. intros H. step H. inversion H. eauto.
Qed.

Lemma hidden_layers_kinds (fw : Keras.framework) (act : string) (dr : Q)
    (prev : Z) (units : list Z) (ls : list Keras.layer) :
  Utils.hidden_layers fw act dr prev units = Ok ls ->
  Forall (fun l => Keras.is_Dense l || Keras.is_Dropout l = true) ls.
Proof.
  revert prev ls. induction units as [| n rest IH]; simpl; intros prev ls H.
  - inversion H. constructor.
  - step H. step H. inversion H; subst. constructor; [reflexivity |].
    apply Forall_app. split; [| eapply IH; eassumption].
    destruct (Qgtb dr 0).
    + step E. inversion E; subst.
      unfold Keras.new_Dropout in E1.
      destruct (Keras.dropout_rate_ok fw dr); [| discriminate].
      inversion E1. constructor; [reflexivity | constructor].
    + inversion E. constructor.
Qed.

Lemma apply_layers_layers_of (ls : list Keras.layer) (x y : Keras.tensor) :
  Utils.apply_layers ls x = Ok y ->
  Keras.layers_of y = Keras.layers_of x ++ ls.
Proof.
  unfold Utils.apply_layers. revert x.
  induction ls as [| l rest IH]; simpl; intros x H.
  - inversion H. rewrite app_nil_r. reflexivity.
  - step H. apply call_inv in E. destruct E as (s & _ & ->).
    rewrite (IH _ H). simpl. rewrite <- app_assoc. reflexivity.
Qed.

Lemma apply_layers_merged (ls : list Keras.layer) (x y : Keras.tensor) :
  Utils.apply_layers ls x = Ok y -> Keras.merged y = Keras.merged x.
Proof.
  unfold Utils.apply_layers. revert x.
  induction ls as [| l rest IH]; simpl; intros x H.
  - inversion H. reflexivity.
  - step H. apply call_inv in E. destruct E as (s & _ & ->).
    rewrite (IH _ H). reflexivity.
Qed.


(** Dense and dropout layers keep a vector a vector. *)
Lemma apply_layers_vector (ls : list Keras.layer) (x y : Keras.tensor) (k : Z) :
  Forall (fun l => Keras.is_Dense l || Keras.is_Dropout l = true) ls ->
  Keras.shape_of x = [k] ->
  Utils.apply_layers ls x = Ok y ->
  exists k', Keras.shape_of y = [k'].
Proof.
  unfold Utils.apply_layers. intros Hall. revert x k.
  induction Hall as [| l rest Hl _ IH]; simpl; intros x k Hx H.
  - inversion H; subst. eauto.
  - step H. apply call_inv in E. destruct E as (s & Hs & ->).
    rewrite Hx in Hs.
    destruct l; try discriminate Hl; simpl in Hs; inversion Hs; subst;
      (eapply IH; [| exact H]; reflexivity).
Qed.

Lemma call_Dense_vector (units : Z) (d : option Z) (act : string)
    (x y : Keras.tensor) (k : Z) :
  Keras.shape_of x = [k] ->
  Keras.call (Keras.Dense units d act) x = Ok y ->
  y = Keras.Call (Keras.Dense units d act) x [units].
Proof.
  intros Hx H. apply call_inv in H. destruct H as (s & Hs & ->).
  rewrite Hx in Hs. simpl in Hs. inversion Hs. reflexivity.
Qed.


(** ** The graph of TextCNN *)

Lemma apply_conv_layers_inv (a : TextCNN.args) (x b : Keras.tensor) (d w : Z) :
  Keras.shape_of x = [TextCNN.max_seq_len a; d] ->
  TextCNN.apply_conv_layers x
    (TextCNN.conv_layers (TextCNN.num_filters a) (TextCNN.max_seq_len a) w)
  = Ok b ->
  b = TextCNN.branch a x w /\ 1 <= w <= TextCNN.max_seq_len a.
Proof.
  intros Hx H. unfold TextCNN.apply_conv_layers, TextCNN.conv_layers in H.
  step H. step H.
  apply call_inv in E. destruct E as (s1 & Hs1 & ->).
  apply call_inv in E0. destruct E0 as (s2 & Hs2 & ->).
  apply call_inv in H. destruct H as (s3 & Hs3 & ->).
  rewrite Hx in Hs1. simpl in Hs1.
  destruct ((1 <=? w) && (w <=? TextCNN.max_seq_len a)) eqn:Hw;
    [| discriminate].
  apply andb_prop in Hw. destruct Hw as [Hw1 Hw2].
  apply Z.leb_le in Hw1. apply Z.leb_le in Hw2.
  rewrite conv_output_length_stride1 in Hs1. inversion Hs1; subst s1.
  simpl in Hs2.
  replace (1 <=? TextCNN.max_seq_len a - w + 1) with true in Hs2
    by (symmetry; apply Z.leb_le; lia).
  rewrite Z.leb_refl in Hs2. simpl in Hs2.
  rewrite conv_output_length_whole in Hs2 by lia.
  inversion Hs2; subst s2.
  cbn [Keras.shape_of Keras.output_shape] in Hs3.
  rewrite prod_single_position in Hs3.
  inversion Hs3; subst s3.
  split; [reflexivity | lia].
Qed.

Lemma concatenate_vectors_inv (fw : Keras.framework) (ts : list Keras.tensor)
    (n : Z) (t : Keras.tensor) :
  Forall (fun x => Keras.shape_of x = [n]) ts ->
  Keras.concatenate fw ts 1 = Ok t ->
  t = Keras.Concat ts 1 [n * Z.of_nat (List.length ts)] /\
  (Keras.merge_min_inputs fw <= List.length ts)%nat /\
  ts <> [].
Proof.
  intros Hall H. unfold Keras.concatenate in H.
  destruct (List.length ts <? Keras.merge_min_inputs fw)%nat eqn:Hmin;
    [discriminate |].
  apply Nat.ltb_ge in Hmin. simpl in H.
  destruct ts as [| x rest]; [discriminate |].
  inversion Hall as [| ? ? Hx Hrest]; subst.
  cbn [map] in H. rewrite Hx in H. simpl in H.
  rewrite (merge_all_vectors n) in H.
  - inversion H. split; [| split; [exact Hmin | discriminate]].
    f_equal. f_equal. rewrite length_map. cbn [List.length]. lia.
  - apply Forall_map. exact Hrest.
Qed.

Lemma branch_shape (a : TextCNN.args) (x : Keras.tensor) (ws : list Z) :
  Forall (fun t => Keras.shape_of t = [TextCNN.num_filters a])
         (map (TextCNN.branch a x) ws).
Proof.
  apply Forall_map. apply Forall_forall. intros w _. reflexivity.
Qed.

(** Everything a successful [TextCNN.__init__] has built. *)
Lemma TextCNN_init_inv (fw : Keras.framework) (a : TextCNN.args)
    (self : TextCNN.t) :
  TextCNN.__init__ fw a = Ok self ->
  exists emb d hiddens y,
    Utils.init_embedding_layer (TextCNN.embedding_matrix a)
      (TextCNN.embedding_dim a) (TextCNN.embedding_vocab_size a)
      (TextCNN.embedding_trainable a) (TextCNN.max_seq_len a) = Ok emb /\
    Utils.hidden_layers fw (TextCNN.hidden_activation a) (TextCNN.dropout a)
      (TextCNN.embedding_dim a) (TextCNN.num_hidden_units a) = Ok hiddens /\
    Forall (fun w => 1 <= w <= TextCNN.max_seq_len a) (TextCNN.filter_sizes a) /\
    (Keras.merge_min_inputs fw <= List.length (TextCNN.filter_sizes a))%nat /\
    TextCNN.filter_sizes a <> [] /\
    let input := Keras.Input [TextCNN.max_seq_len a] "int32"%string in
    let x := Keras.Call emb input [TextCNN.max_seq_len a; d] in
    let m := Keras.Concat (map (TextCNN.branch a x) (TextCNN.filter_sizes a)) 1
               [TextCNN.num_filters a
                * Z.of_nat (List.length (TextCNN.filter_sizes a))] in
    Utils.apply_layers
      ((if Qgtb (TextCNN.dropout a) 0
        then [Keras.Dropout (TextCNN.dropout a)] else []) ++ hiddens) m
    = Ok y /\
    TextCNN.self_model self
    = {| Keras.inputs := input;
         Keras.outputs :=
           Keras.Call (Keras.Dense (TextCNN.num_classes a) None
                         (Utils.output_activation (TextCNN.multi_label a)))
                      y [TextCNN.num_classes a] |}.
Proof.
  intros H. unfold TextCNN.__init__ in H. cbv zeta in H.
  step H as emb Eemb.
  step H as layer_dropout Edrop.
  step H as hiddens Ehid.
  step H as x Ex.
  step H as convs Econvs.
  step H as m Em.
  step H as dropped Edropped.
  step H as y Ey.
  step H as output Eout.
  inversion H; subst self; clear H. cbn [TextCNN.self_model].
  destruct (init_embedding_layer_inv _ _ _ _ _ _ Eemb)
    as (vocab & d & w & tr & -> & _ & _).
  rewrite call_Embedding in Ex. inversion Ex; subst x; clear Ex.
  rewrite mapM_map in Econvs.
  apply (mapM_Ok_inv _
           (TextCNN.branch a
              (Keras.Call (Keras.Embedding vocab d w tr (TextCNN.max_seq_len a))
                 (Keras.Input [TextCNN.max_seq_len a] "int32"%string)
                 [TextCNN.max_seq_len a; d]))
           (fun w => 1 <= w <= TextCNN.max_seq_len a)) in Econvs.
  2:{ intros fsz b Hb.
      eapply apply_conv_layers_inv; [reflexivity | exact Hb]. }
  destruct Econvs as [-> Hrange].
  apply (concatenate_vectors_inv _ _ (TextCNN.num_filters a)) in Em;
    [| apply branch_shape].
  destruct Em as (-> & Hmin & Hne).
  rewrite length_map in *.
  assert (Hstack :
    Utils.apply_layers
      ((if Qgtb (TextCNN.dropout a) 0
        then [Keras.Dropout (TextCNN.dropout a)] else []) ++ hiddens)
      (Keras.Concat
         (map (TextCNN.branch a
                 (Keras.Call
                    (Keras.Embedding vocab d w tr (TextCNN.max_seq_len a))
                    (Keras.Input [TextCNN.max_seq_len a] "int32"%string)
                    [TextCNN.max_seq_len a; d]))
              (TextCNN.filter_sizes a)) 1
         [TextCNN.num_filters a
          * Z.of_nat (List.length (TextCNN.filter_sizes a))])
    = Ok y).
  { destruct (Qgtb (TextCNN.dropout a) 0).
    - step Edrop as dl Edl. inversion Edrop; subst layer_dropout.
      unfold Keras.new_Dropout in Edl.
      destruct (Keras.dropout_rate_ok fw (TextCNN.dropout a));
        [| discriminate].
      inversion Edl; subst dl.
      unfold Utils.apply_layers. cbn [app foldM].
      rewrite Edropped. exact Ey.
    - inversion Edrop; subst layer_dropout.
      inversion Edropped; subst dropped. exact Ey. }
  assert (Hvec : exists k, Keras.shape_of y = [k]).
  { eapply apply_layers_vector; [| | exact Hstack].
    - apply Forall_app. split.
      + destruct (Qgtb (TextCNN.dropout a) 0); repeat constructor.
      + eapply hidden_layers_kinds. exact Ehid.
    - reflexivity. }
  destruct Hvec as [k Hk].
  apply (call_Dense_vector _ _ _ _ _ k Hk) in Eout. subst output.
  exists (Keras.Embedding vocab d w tr (TextCNN.max_seq_len a)), d, hiddens, y.
  repeat split; try assumption.
  intros Hnil. apply Hne. rewrite Hnil. reflexivity.
Qed.

(** ** The graph of TextRCNN *)

Lemma concatenate_features_inv (fw : Keras.framework)
    (f x b t : Keras.tensor) (steps r d : Z) :
  Keras.shape_of f = [steps; r] ->
  Keras.shape_of x = [steps; d] ->
  Keras.shape_of b = [steps; r] ->
  Keras.concatenate fw [f; x; b] 2 = Ok t ->
  t = Keras.Concat [f; x; b] 2 [steps; r + d + r] /\
  (Keras.merge_min_inputs fw <= 3)%nat.
Proof.
  intros Hf Hx Hb H. unfold Keras.concatenate in H.
  destruct (List.length [f; x; b] <? Keras.merge_min_inputs fw)%nat eqn:Hmin;
    [discriminate |].
  apply Nat.ltb_ge in Hmin. cbn [List.length] in Hmin.
  cbn [map] in H. rewrite Hf, Hx, Hb in H.
  change (2 <? 1) with false in H.
  change (Z.to_nat (2 - 1)) with 1%nat in H.
  change (1 <? List.length [steps; r])%nat with true in H.
  unfold Keras.merge_all in H.
  cbn [fold_left Keras.merge_at] in H.
  rewrite !Z.eqb_refl in H.
  cbn [option_map Keras.shape_eqb Keras.merge_at] in H.
  rewrite !Z.eqb_refl in H.
  cbn [option_map Keras.shape_eqb Keras.merge_at] in H.
  inversion H. split; [reflexivity | exact Hmin].
Qed.

(** Everything a successful [TextRCNN.__init__] has built. *)
Lemma TextRCNN_init_inv (fw : Keras.framework) (a : TextRCNN.args)
    (self : TextRCNN.t) :
  TextRCNN.__init__ fw a = Ok self ->
  exists emb d hiddens y,
    Utils.init_embedding_layer (TextRCNN.embedding_matrix a)
      (TextRCNN.embedding_dim a) (TextRCNN.embedding_vocab_size a)
      (TextRCNN.embedding_trainable a) (TextRCNN.max_seq_len a) = Ok emb /\
    (TextRCNN.embedding_matrix a = None -> d = TextRCNN.embedding_dim a) /\
    (forall mat, TextRCNN.embedding_matrix a = Some mat ->
                 d = Utils.matrix_cols mat) /\
    Utils.hidden_layers fw (TextRCNN.hidden_activation a) (TextRCNN.dropout a)
      (TextRCNN.embedding_dim a) (TextRCNN.num_hidden_units a) = Ok hiddens /\
    1 <= TextRCNN.max_seq_len a /\
    (Keras.merge_min_inputs fw <= 3)%nat /\
    let input := Keras.Input [TextRCNN.max_seq_len a] "int32"%string in
    let x := Keras.Call emb input [TextRCNN.max_seq_len a; d] in
    Utils.apply_layers hiddens (TextRCNN.pooled a x d) = Ok y /\
    TextRCNN.self_model self
    = {| Keras.inputs := input;
         Keras.outputs :=
           Keras.Call (Keras.Dense (TextRCNN.num_classes a) None
                         (Utils.output_activation (TextRCNN.multi_label a)))
                      y [TextRCNN.num_classes a] |}.
Proof.
  intros H. unfold TextRCNN.__init__ in H. cbv zeta in H.
  step H as emb Eemb.
  step H as hiddens Ehid.
  step H as x Ex.
  step H as forward Ef.
  step H as backward Eb.
  step H as reversed Er.
  step H as tog Etog.
  step H as semantic Esem.
  step H as pool Epool.
  step H as y Ey.
  step H as output Eout.
  inversion H; subst self; clear H. cbn [TextRCNN.self_model].
  destruct (init_embedding_layer_inv _ _ _ _ _ _ Eemb)
    as (vocab & d & w & tr & -> & HdNone & HdSome).
  rewrite call_Embedding in Ex. inversion Ex; subst x; clear Ex.
  apply call_inv in Ef. destruct Ef as (sf & Hsf & ->).
  apply call_inv in Eb. destruct Eb as (sb & Hsb & ->).
  apply call_inv in Er. destruct Er as (sr & Hsr & ->).
  cbn in Hsf, Hsb. inversion Hsf; subst sf. inversion Hsb; subst sb.
  cbn in Hsr. inversion Hsr; subst sr.
  apply (concatenate_features_inv _ _ _ _ _ (TextRCNN.max_seq_len a)
           (TextRCNN.rnn_hidden_units a) d) in Etog; try reflexivity.
  destruct Etog as [-> Hmin].
  apply call_inv in Esem. destruct Esem as (ss & Hss & ->).
  cbn [Keras.shape_of Keras.output_shape] in Hss.
  destruct ((1 <=? 1) && (1 <=? TextRCNN.max_seq_len a)) eqn:Hlen;
    [| discriminate].
  apply andb_prop in Hlen. destruct Hlen as [_ Hlen]. apply Z.leb_le in Hlen.
  rewrite conv_output_length_stride1 in Hss.
  replace (TextRCNN.max_seq_len a - 1 + 1) with (TextRCNN.max_seq_len a) in Hss
    by lia.
  inversion Hss; subst ss.
  apply call_inv in Epool. destruct Epool as (sp & Hsp & ->).
  cbn [Keras.shape_of Keras.output_shape] in Hsp. inversion Hsp; subst sp.
  assert (Hvec : exists k, Keras.shape_of y = [k]).
  { eapply apply_layers_vector; [| | exact Ey].
    - eapply hidden_layers_kinds. exact Ehid.
    - reflexivity. }
  destruct Hvec as [k Hk].
  apply (call_Dense_vector _ _ _ _ _ k Hk) in Eout. subst output.
  exists (Keras.Embedding vocab d w tr (TextRCNN.max_seq_len a)), d, hiddens, y.
  repeat split; try assumption.
Qed.

(** ** Built instances used as examples *)

Lemma cnn_small_built :
  { self | TextCNN.__init__ keras_strict cnn_small = Ok self }.
Proof.
  eexists. cbv. reflexivity.
Defined.

Lemma rcnn_small_built :
  { self | TextRCNN.__init__ keras_strict rcnn_small = Ok self }.
Proof.
  eexists. cbv. reflexivity.
Defined.

(** ** The branches of TextCNN *)

(** C1.  Whenever [TextCNN.__init__] succeeds, the tensor merged in the built
    graph is the concatenation along axis 1 of one branch per window size, in
    the order of [filter_sizes]; the branch for window [w] is
    Conv1D(num_filters, w, relu), then MaxPooling1D(max_seq_len - w + 1),
    then Flatten, with inferred shapes (max_seq_len - w + 1, num_filters),
    (1, num_filters) and (num_filters,); the merged vector has length
    num_filters * |filter_sizes|. *)
Theorem TextCNN_branches (fw : Keras.framework) (a : TextCNN.args)
    (self : TextCNN.t) :
  TextCNN.__init__ fw a = Ok self ->
  exists emb d,
    let x := Keras.Call emb
               (Keras.Input [TextCNN.max_seq_len a] "int32"%string)
               [TextCNN.max_seq_len a; d] in
    Keras.merged (Keras.outputs (TextCNN.self_model self))
    = Some (Keras.Concat
              (map (TextCNN.branch a x) (TextCNN.filter_sizes a)) 1
              [TextCNN.num_filters a
               * Z.of_nat (List.length (TextCNN.filter_sizes a))]).
Proof.
  intros H.
  destruct (TextCNN_init_inv fw a self H)
    as (emb & d & hiddens & y & _ & _ & _ & _ & _ & Hy & Hmodel).
  exists emb, d. cbv zeta. rewrite Hmodel. cbn [Keras.outputs Keras.merged].
  rewrite (apply_layers_merged _ _ _ Hy). reflexivity.
Qed.

Lemma TextCNN_branches_witness :
  exists emb d,
    Keras.merged
      (Keras.outputs (TextCNN.self_model (proj1_sig cnn_small_built)))
    = Some (Keras.Concat
              (map (TextCNN.branch cnn_small
                      (Keras.Call emb (Keras.Input [10] "int32"%string)
                         [10; d]))
                   [2; 3]) 1 [4 * 2]).
Proof.
  exact (TextCNN_branches keras_strict cnn_small (proj1_sig cnn_small_built)
           (proj2_sig cnn_small_built)).
Defined.

(** ** The recurrent part of TextRCNN *)





(** ** The output layer *)

(** C3.  Whenever construction succeeds, the output tensor of either model is
    produced by a Dense layer of [num_classes] units whose activation is
    sigmoid when [multi_label] is true and softmax when it is false, and
    calling the model on an array of shape (batch, max_seq_len) returns an
    array of shape (batch, num_classes). *)
Theorem output_layer (fw : Keras.framework)
    (a : TextCNN.args) (b : TextRCNN.args)
    (cnn : TextCNN.t) (rcnn : TextRCNN.t) (batch : Z) :
  TextCNN.__init__ fw a = Ok cnn ->
  TextRCNN.__init__ fw b = Ok rcnn ->
  (exists y,
     Keras.outputs (TextCNN.self_model cnn)
     = Keras.Call
         (Keras.Dense (TextCNN.num_classes a) None
            (if TextCNN.multi_label a then "sigmoid" else "softmax")%string)
         y [TextCNN.num_classes a]) /\
  snd (TextCNN.call cnn [batch; TextCNN.max_seq_len a])
  = Ok [batch; TextCNN.num_classes a] /\
  (exists y,
     Keras.outputs (TextRCNN.self_model rcnn)
     = Keras.Call
         (Keras.Dense (TextRCNN.num_classes b) None
            (if TextRCNN.multi_label b then "sigmoid" else "softmax")%string)
         y [TextRCNN.num_classes b]) /\
  snd (TextRCNN.call rcnn [batch; TextRCNN.max_seq_len b])
  = Ok [batch; TextRCNN.num_classes b].
Proof.
  intros Ha Hb.
  destruct (TextCNN_init_inv fw a cnn Ha)
    as (? & ? & ? & ya & _ & _ & _ & _ & _ & _ & Hcnn).
  destruct (TextRCNN_init_inv fw b rcnn Hb)
    as (? & ? & ? & yb & _ & _ & _ & _ & _ & _ & _ & Hrcnn).
  unfold TextCNN.call, TextRCNN.call, Keras.Model_call.
  cbn [List.length Nat.eqb snd].
  rewrite Hcnn, Hrcnn. cbn [Keras.inputs Keras.outputs Keras.shape_of].
  rewrite !shape_eqb_refl.
  repeat split; try (eexists; reflexivity).
Qed.

Lemma output_layer_witness :
  (exists y,
     Keras.outputs (TextCNN.self_model (proj1_sig cnn_small_built))
     = Keras.Call (Keras.Dense 3 None "sigmoid"%string) y [3]) /\
  snd (TextCNN.call (proj1_sig cnn_small_built) [2; 10]) = Ok [2; 3] /\
  (exists y,
     Keras.outputs (TextRCNN.self_model (proj1_sig rcnn_small_built))
     = Keras.Call (Keras.Dense 3 None "sigmoid"%string) y [3]) /\
  snd (TextRCNN.call (proj1_sig rcnn_small_built) [1; 5]) = Ok [1; 3].
Proof.
  destruct (output_layer keras_strict cnn_small rcnn_small
              (proj1_sig cnn_small_built) (proj1_sig rcnn_small_built) 2
              (proj2_sig cnn_small_built) (proj2_sig rcnn_small_built))
    as (H1 & H2 & _ & _).
  destruct (output_layer keras_strict cnn_small rcnn_small
              (proj1_sig cnn_small_built) (proj1_sig rcnn_small_built) 1
              (proj2_sig cnn_small_built) (proj2_sig rcnn_small_built))
    as (_ & _ & H3 & H4).
  repeat split; assumption.
Defined.

(** ** pooling_strategy *)

Lemma TextCNN_pooling_strategy_unread (fw : Keras.framework)
    (a : TextCNN.args) (s : string) :
  cnn_model (TextCNN.__init__ fw (TextCNN.with_pooling_strategy s a))
  = cnn_model (TextCNN.__init__ fw a).
Proof.
  unfold cnn_model, TextCNN.__init__, TextCNN.with_pooling_strategy.
  cbv zeta. cbn [TextCNN.num_classes TextCNN.embedding_dim
    TextCNN.embedding_matrix TextCNN.embedding_trainable
    TextCNN.embedding_vocab_size TextCNN.num_filters TextCNN.filter_sizes
    TextCNN.pooling_strategy TextCNN.max_seq_len TextCNN.num_hidden_units
    TextCNN.hidden_activation TextCNN.dropout TextCNN.multi_label].
  repeat match goal with
         | |- context [Py.bind ?m _] =>
             destruct m; cbn [Py.bind Py.fmap]; try reflexivity
         end.
Qed.

Lemma TextRCNN_pooling_strategy_unread (fw : Keras.framework)
    (a : TextRCNN.args) (s : string) :
  rcnn_model (TextRCNN.__init__ fw (TextRCNN.with_pooling_strategy s a))
  = rcnn_model (TextRCNN.__init__ fw a).
Proof.
  unfold rcnn_model, TextRCNN.__init__, TextRCNN.with_pooling_strategy.
  cbv zeta. cbn [TextRCNN.num_classes TextRCNN.embedding_dim
    TextRCNN.embedding_matrix TextRCNN.embedding_trainable
    TextRCNN.embedding_vocab_size TextRCNN.rnn_hidden_units
    TextRCNN.conv_hidden_units TextRCNN.pooling_strategy TextRCNN.max_seq_len
    TextRCNN.num_hidden_units TextRCNN.hidden_activation TextRCNN.dropout
    TextRCNN.multi_label].
  repeat match goal with
         | |- context [Py.bind ?m _] =>
             destruct m; cbn [Py.bind Py.fmap]; try reflexivity
         end.
Qed.

Lemma cnn_model_Ok (r : result TextCNN.t) (self : TextCNN.t) :
  r = Ok self -> cnn_model r = Ok (TextCNN.self_model self).
Proof.
  intros ->. reflexivity.
Qed.

Lemma rcnn_model_Ok (r : result TextRCNN.t) (self : TextRCNN.t) :
  r = Ok self -> rcnn_model r = Ok (TextRCNN.self_model self).
Proof.
  intros ->. reflexivity.
Qed.

Lemma filter_pooling_stack (ls : list Keras.layer) :
  Forall (fun l => Keras.is_Dense l || Keras.is_Dropout l = true) ls ->
  filter Keras.is_pooling ls = [].
Proof.
  induction 1 as [| l rest Hl _ IH]; simpl.
  - reflexivity.
  - destruct l; try discriminate Hl; exact IH.
Qed.

Lemma filter_pooling_branches (a : TextCNN.args) (x : Keras.tensor)
    (ws : list Z) :
  filter Keras.is_pooling (Keras.layers_of x) = [] ->
  filter Keras.is_pooling
    (flat_map Keras.layers_of (map (TextCNN.branch a x) ws))
  = map (fun w => Keras.MaxPooling1D (TextCNN.max_seq_len a - w + 1)) ws.
Proof.
  intros Hx. induction ws as [| w rest IH].
  - reflexivity.
  - cbn [map flat_map]. rewrite filter_app, IH.
    unfold TextCNN.branch at 1. cbn [Keras.layers_of].
    rewrite !filter_app, Hx. reflexivity.
Qed.

Lemma embedding_not_pooling (m : option Keras.ndarray) (d : Z)
    (v : option Z) (tr : bool) (steps : Z) (emb : Keras.layer) :
  Utils.init_embedding_layer m d v tr steps = Ok emb ->
  Keras.is_pooling emb = false.
Proof.
  intros H. apply init_embedding_layer_inv in H.
  destruct H as (? & ? & ? & ? & -> & _). reflexivity.
Qed.

Lemma TextCNN_pooling_layers (fw : Keras.framework) (a : TextCNN.args)
    (self : TextCNN.t) :
  TextCNN.__init__ fw a = Ok self ->
  filter Keras.is_pooling
    (Keras.layers_of (Keras.outputs (TextCNN.self_model self)))
  = map (fun w => Keras.MaxPooling1D (TextCNN.max_seq_len a - w + 1))
        (TextCNN.filter_sizes a).
Proof.
  intros H.
  destruct (TextCNN_init_inv fw a self H)
    as (emb & d & hiddens & y & Hemb & Hhid & _ & _ & _ & Hy & Hmodel).
  cbv zeta in Hy. rewrite Hmodel. cbn [Keras.outputs Keras.layers_of].
  rewrite (apply_layers_layers_of _ _ _ Hy). cbn [Keras.layers_of].
  rewrite !filter_app.
  rewrite filter_pooling_branches.
  - rewrite (filter_pooling_stack hiddens)
      by (eapply hidden_layers_kinds; exact Hhid).
    destruct (Qgtb (TextCNN.dropout a) 0);
      cbn [filter Keras.is_pooling]; rewrite !app_nil_r; reflexivity.
  - cbn [Keras.layers_of app filter].
    rewrite (embedding_not_pooling _ _ _ _ _ _ Hemb). reflexivity.
Qed.

Lemma TextRCNN_pooling_layers (fw : Keras.framework) (a : TextRCNN.args)
    (self : TextRCNN.t) :
  TextRCNN.__init__ fw a = Ok self ->
  filter Keras.is_pooling
    (Keras.layers_of (Keras.outputs (TextRCNN.self_model self)))
  = [Keras.LambdaMax].
Proof.
  intros H.
  destruct (TextRCNN_init_inv fw a self H)
    as (emb & d & hiddens & y & Hemb & _ & _ & Hhid & _ & _ & Hy & Hmodel).
  cbv zeta in Hy. rewrite Hmodel. cbn [Keras.outputs Keras.layers_of].
  rewrite (apply_layers_layers_of _ _ _ Hy).
  unfold TextRCNN.pooled, TextRCNN.together.
  cbn [Keras.layers_of flat_map app].
  apply init_embedding_layer_inv in Hemb.
  destruct Hemb as (vocab & dim & w & tr & -> & _).
  cbn [filter Keras.is_pooling]. rewrite filter_app.
  rewrite (filter_pooling_stack hiddens)
    by (eapply hidden_layers_kinds; exact Hhid).
  reflexivity.
Qed.

(** C4.  Take any configuration of either model and any two values of
    [pooling_strategy].  The two constructions succeed or fail together and
    build the same layer graph; when they succeed, the two instances return
    the same result on every input, and the pooling layers of the graph are
    the MaxPooling1D layers of the branches (TextCNN) and the K.max layer
    (TextRCNN), whatever the strategy is. *)
Theorem pooling_strategy_has_no_effect (fw : Keras.framework)
    (a : TextCNN.args) (b : TextRCNN.args) (s1 s2 : string)
    (cnn1 cnn2 : TextCNN.t) (rcnn1 rcnn2 : TextRCNN.t) :
  TextCNN.__init__ fw (TextCNN.with_pooling_strategy s1 a) = Ok cnn1 ->
  TextCNN.__init__ fw (TextCNN.with_pooling_strategy s2 a) = Ok cnn2 ->
  TextRCNN.__init__ fw (TextRCNN.with_pooling_strategy s1 b) = Ok rcnn1 ->
  TextRCNN.__init__ fw (TextRCNN.with_pooling_strategy s2 b) = Ok rcnn2 ->
  cnn_model (TextCNN.__init__ fw (TextCNN.with_pooling_strategy s1 a))
  = cnn_model (TextCNN.__init__ fw (TextCNN.with_pooling_strategy s2 a)) /\
  rcnn_model (TextRCNN.__init__ fw (TextRCNN.with_pooling_strategy s1 b))
  = rcnn_model (TextRCNN.__init__ fw (TextRCNN.with_pooling_strategy s2 b)) /\
  TextCNN.self_model cnn1 = TextCNN.self_model cnn2 /\
  TextRCNN.self_model rcnn1 = TextRCNN.self_model rcnn2 /\
  (forall inputs,
     snd (TextCNN.call cnn1 inputs) = snd (TextCNN.call cnn2 inputs) /\
     snd (TextRCNN.call rcnn1 inputs) = snd (TextRCNN.call rcnn2 inputs)) /\
  filter Keras.is_pooling
    (Keras.layers_of (Keras.outputs (TextCNN.self_model cnn1)))
  = map (fun w => Keras.MaxPooling1D (TextCNN.max_seq_len a - w + 1))
        (TextCNN.filter_sizes a) /\
  filter Keras.is_pooling
    (Keras.layers_of (Keras.outputs (TextRCNN.self_model rcnn1)))
  = [Keras.LambdaMax].
Proof.
  intros Hc1 Hc2 Hr1 Hr2.
  assert (Hc : cnn_model
                 (TextCNN.__init__ fw (TextCNN.with_pooling_strategy s1 a))
               = cnn_model
                   (TextCNN.__init__ fw (TextCNN.with_pooling_strategy s2 a)))
    by (rewrite !TextCNN_pooling_strategy_unread; reflexivity).
  assert (Hr : rcnn_model
                 (TextRCNN.__init__ fw (TextRCNN.with_pooling_strategy s1 b))
               = rcnn_model
                   (TextRCNN.__init__ fw (TextRCNN.with_pooling_strategy s2 b)))
    by (rewrite !TextRCNN_pooling_strategy_unread; reflexivity).
  assert (Hcm : TextCNN.self_model cnn1 = TextCNN.self_model cnn2).
  { rewrite (cnn_model_Ok _ _ Hc1), (cnn_model_Ok _ _ Hc2) in Hc.
    inversion Hc. reflexivity. }
  assert (Hrm : TextRCNN.self_model rcnn1 = TextRCNN.self_model rcnn2).
  { rewrite (rcnn_model_Ok _ _ Hr1), (rcnn_model_Ok _ _ Hr2) in Hr.
    inversion Hr. reflexivity. }
  split; [exact Hc |]. split; [exact Hr |].
  split; [exact Hcm |]. split; [exact Hrm |].
  split.
  - intros inputs. unfold TextCNN.call, TextRCNN.call.
    rewrite Hcm, Hrm.
    destruct (List.length inputs =? 2)%nat; split; reflexivity.
  - split.
    + apply (TextCNN_pooling_layers fw _ _ Hc1).
    + apply (TextRCNN_pooling_layers fw _ _ Hr1).
Qed.

Lemma cnn_mean_built :
  { self | TextCNN.__init__ keras_strict
             (TextCNN.with_pooling_strategy "REDUCE_MEAN" cnn_small) = Ok self }.
Proof.
  eexists. cbv. reflexivity.
Defined.

Lemma cnn_max_built :
  { self | TextCNN.__init__ keras_strict
             (TextCNN.with_pooling_strategy "REDUCE_MAX" cnn_small) = Ok self }.
Proof.
  eexists. cbv. reflexivity.
Defined.

Lemma rcnn_mean_built :
  { self | TextRCNN.__init__ keras_strict
             (TextRCNN.with_pooling_strategy "REDUCE_MEAN" rcnn_small)
           = Ok self }.
Proof.
  eexists. cbv. reflexivity.
Defined.

Lemma rcnn_max_built :
  { self | TextRCNN.__init__ keras_strict
             (TextRCNN.with_pooling_strategy "REDUCE_MAX" rcnn_small)
           = Ok self }.
Proof.
  eexists. cbv. reflexivity.
Defined.

Lemma pooling_strategy_has_no_effect_witness :
  TextCNN.self_model (proj1_sig cnn_mean_built)
  = TextCNN.self_model (proj1_sig cnn_max_built) /\
  TextRCNN.self_model (proj1_sig rcnn_mean_built)
  = TextRCNN.self_model (proj1_sig rcnn_max_built) /\
  filter Keras.is_pooling
    (Keras.layers_of
       (Keras.outputs (TextCNN.self_model (proj1_sig cnn_mean_built))))
  = [Keras.MaxPooling1D (10 - 2 + 1); Keras.MaxPooling1D (10 - 3 + 1)] /\
  filter Keras.is_pooling
    (Keras.layers_of
       (Keras.outputs (TextRCNN.self_model (proj1_sig rcnn_mean_built))))
  = [Keras.LambdaMax].
Proof.
  destruct (pooling_strategy_has_no_effect keras_strict cnn_small rcnn_small
              "REDUCE_MEAN" "REDUCE_MAX"
              (proj1_sig cnn_mean_built) (proj1_sig cnn_max_built)
              (proj1_sig rcnn_mean_built) (proj1_sig rcnn_max_built)
              (proj2_sig cnn_mean_built) (proj2_sig cnn_max_built)
              (proj2_sig rcnn_mean_built) (proj2_sig rcnn_max_built))
    as (_ & _ & H1 & H2 & _ & H3 & H4).
  repeat split; assumption.
Defined.

(** ** The call-time assertion *)

(** C5.  On an input whose rank is not 2 the call of either model raises
    AssertionError and nothing else happens; on an input of rank 2 the
    assertion passes and the result is that of applying the Keras model to
    the input. *)
Theorem call_asserts_rank_2 (cnn : TextCNN.t) (rcnn : TextRCNN.t)
    (bad good : Keras.shape) :
  List.length bad <> 2%nat ->
  List.length good = 2%nat ->
  TextCNN.call cnn bad = (cnn, Raise AssertionError) /\
  TextRCNN.call rcnn bad = (rcnn, Raise AssertionError) /\
  TextCNN.call cnn good
  = (cnn, Keras.Model_call (TextCNN.self_model cnn) good) /\
  TextRCNN.call rcnn good
  = (rcnn, Keras.Model_call (TextRCNN.self_model rcnn) good).
Proof.
  intros Hbad Hgood. unfold TextCNN.call, TextRCNN.call.
  apply Nat.eqb_neq in Hbad. apply Nat.eqb_eq in Hgood.
  rewrite Hbad, Hgood. repeat split.
Qed.

Lemma call_asserts_rank_2_witness :
  TextCNN.call (proj1_sig cnn_small_built) [10]
  = (proj1_sig cnn_small_built, Raise AssertionError) /\
  TextRCNN.call (proj1_sig rcnn_small_built) [10]
  = (proj1_sig rcnn_small_built, Raise AssertionError) /\
  TextCNN.call (proj1_sig cnn_small_built) [2; 10]
  = (proj1_sig cnn_small_built,
     Keras.Model_call (TextCNN.self_model (proj1_sig cnn_small_built)) [2; 10])
  /\
  TextRCNN.call (proj1_sig rcnn_small_built) [2; 10]
  = (proj1_sig rcnn_small_built,
     Keras.Model_call (TextRCNN.self_model (proj1_sig rcnn_small_built))
       [2; 10]).
Proof.
  apply (call_asserts_rank_2 (proj1_sig cnn_small_built)
           (proj1_sig rcnn_small_built) [10] [2; 10]).
  - simpl. lia.
  - reflexivity.
Defined.

(** ** Window sizes beyond the sequence *)

Lemma MaxPooling1D_nonpositive (p : Z) (s : Keras.shape) :
  p <= 0 -> raises (Keras.output_shape (Keras.MaxPooling1D p) s).
Proof.
  intros Hp. unfold raises, Keras.bad_shape.
  destruct s as [| steps [| features [| ? ?]]]; simpl;
    try (eexists; reflexivity).
  replace (1 <=? p) with false by (symmetry; apply Z.leb_gt; lia).
  eexists. reflexivity.
Qed.

(** C6.  If some element [w] of [filter_sizes] exceeds [max_seq_len], then
    [TextCNN.__init__] raises, so no instance exists to be called; the
    pooling window max_seq_len - w + 1 is then not positive, and a
    MaxPooling1D layer with that window is rejected on every input. *)
Theorem filter_size_beyond_max_seq_len (fw : Keras.framework)
    (a : TextCNN.args) (w : Z) :
  In w (TextCNN.filter_sizes a) ->
  TextCNN.max_seq_len a < w ->
  raises (TextCNN.__init__ fw a) /\
  TextCNN.max_seq_len a - w + 1 <= 0 /\
  forall s, raises (Keras.output_shape
                      (Keras.MaxPooling1D (TextCNN.max_seq_len a - w + 1)) s).
Proof.
  intros Hin Hlt. split; [| split].
  - destruct (TextCNN.__init__ fw a) as [self | e] eqn:E.
    + exfalso.
      destruct (TextCNN_init_inv fw a self E)
        as (? & ? & ? & ? & _ & _ & Hrange & _).
      rewrite Forall_forall in Hrange. specialize (Hrange w Hin). lia.
    + exists e. reflexivity.
  - lia.
  - intros s. apply MaxPooling1D_nonpositive. lia.
Qed.

Lemma filter_size_beyond_max_seq_len_witness :
  raises (TextCNN.__init__ keras_strict cnn_wide_filter) /\
  10 - 11 + 1 <= 0 /\
  forall s, raises (Keras.output_shape (Keras.MaxPooling1D (10 - 11 + 1)) s).
Proof.
  apply (filter_size_beyond_max_seq_len keras_strict cnn_wide_filter 11).
  - simpl. right. left. reflexivity.
  - simpl. lia.
Defined.

(** ** Missing embedding configuration *)

Lemma init_embedding_layer_raises (d : Z) (v : option Z) (tr : bool)
    (steps : Z) :
  v = None \/ tr = false ->
  exists msg,
    Utils.init_embedding_layer None d v tr steps = Raise (ConfigError msg).
Proof.
  unfold Utils.init_embedding_layer. intros [-> | ->].
  - eexists. reflexivity.
  - destruct v; eexists; reflexivity.
Qed.

(** C7.  With no embedding matrix, construction of either model raises the
    configuration error of the embedding helper when [embedding_vocab_size] is
    None, and also when [embedding_trainable] is False, whatever the other
    parameters are. *)
Theorem missing_embedding_configuration (fw : Keras.framework)
    (a : TextCNN.args) (b : TextRCNN.args) :
  TextCNN.embedding_matrix a = None ->
  TextCNN.embedding_vocab_size a = None
  \/ TextCNN.embedding_trainable a = false ->
  TextRCNN.embedding_matrix b = None ->
  TextRCNN.embedding_vocab_size b = None
  \/ TextRCNN.embedding_trainable b = false ->
  (exists msg, TextCNN.__init__ fw a = Raise (ConfigError msg)) /\
  (exists msg, TextRCNN.__init__ fw b = Raise (ConfigError msg)).
Proof.
  intros Ha Ha' Hb Hb'. split.
  - destruct (init_embedding_layer_raises (TextCNN.embedding_dim a) _ _
                (TextCNN.max_seq_len a) Ha') as [msg Hmsg].
    exists msg. unfold TextCNN.__init__. cbv zeta.
    rewrite Ha, Hmsg. reflexivity.
  - destruct (init_embedding_layer_raises (TextRCNN.embedding_dim b) _ _
                (TextRCNN.max_seq_len b) Hb') as [msg Hmsg].
    exists msg. unfold TextRCNN.__init__. cbv zeta.
    rewrite Hb, Hmsg. reflexivity.
Qed.

Lemma missing_embedding_configuration_witness :
  (exists msg,
     TextCNN.__init__ keras_strict (TextCNN.defaults 3)
     = Raise (ConfigError msg)) /\
  (exists msg,
     TextRCNN.__init__ keras_strict (TextRCNN.defaults 3)
     = Raise (ConfigError msg)).
Proof.
  apply (missing_embedding_configuration keras_strict
           (TextCNN.defaults 3) (TextRCNN.defaults 3)).
  - reflexivity.
  - left. reflexivity.
  - reflexivity.
  - left. reflexivity.
Defined.

(** ** The dropout rate *)










(** ** What a call leaves behind *)

Lemma TextCNN_call_fst (self : TextCNN.t) (inputs : Keras.shape) :
  fst (TextCNN.call self inputs) = self.
Proof.
  unfold TextCNN.call. destruct (List.length inputs =? 2)%nat; reflexivity.
Qed.

Lemma TextRCNN_call_fst (self : TextRCNN.t) (inputs : Keras.shape) :
  fst (TextRCNN.call self inputs) = self.
Proof.
  unfold TextRCNN.call. destruct (List.length inputs =? 2)%nat; reflexivity.
Qed.

Lemma TextCNN_calls_fst (inputs : list Keras.shape) (self : TextCNN.t) :
  fst (TextCNN.calls self inputs) = self.
Proof.
  revert self. induction inputs as [| i rest IH]; intros self.
  - reflexivity.
  - cbn [TextCNN.calls].
    pose proof (TextCNN_call_fst self i) as Hcall.
    destruct (TextCNN.call self i) as [self1 r]. cbn [fst] in Hcall.
    subst self1.
    pose proof (IH self) as Hrest.
    destruct (TextCNN.calls self rest) as [self2 rs]. exact Hrest.
Qed.

Lemma TextRCNN_calls_fst (inputs : list Keras.shape) (self : TextRCNN.t) :
  fst (TextRCNN.calls self inputs) = self.
Proof.
  revert self. induction inputs as [| i rest IH]; intros self.
  - reflexivity.
  - cbn [TextRCNN.calls].
    pose proof (TextRCNN_call_fst self i) as Hcall.
    destruct (TextRCNN.call self i) as [self1 r]. cbn [fst] in Hcall.
    subst self1.
    pose proof (IH self) as Hrest.
    destruct (TextRCNN.calls self rest) as [self2 rs]. exact Hrest.
Qed.

(** C9.  After any sequence of calls, successful or not, the instance of
    either model is the one the sequence started with: every attribute set by
    the constructor, and the layer graph in [self.model], is unchanged. *)
Theorem calls_leave_the_instance_unchanged
    (cnn : TextCNN.t) (rcnn : TextRCNN.t) (inputs : list Keras.shape) :
  fst (TextCNN.calls cnn inputs) = cnn /\
  fst (TextRCNN.calls rcnn inputs) = rcnn.
Proof.
  split; [apply TextCNN_calls_fst | apply TextRCNN_calls_fst].
Qed.

(** ** What the assertion does not check *)

Lemma Model_call_not_AssertionError (m : Keras.Model) (s : Keras.shape) :
  Keras.Model_call m s <> Raise AssertionError.
Proof.
  unfold Keras.Model_call, Keras.bad_shape.
  destruct s as [| batch rest]; [discriminate |].
  destruct (Keras.shape_eqb rest (Keras.shape_of (Keras.inputs m)));
    discriminate.
Qed.

(** C10.  On a rank-2 input whose second dimension is not [max_seq_len], the
    assertion of either model's call passes: the outcome of the call is
    whatever applying the Keras model yields, and it is never the
    AssertionError of this code. *)
Theorem call_checks_the_rank_only (cnn : TextCNN.t) (rcnn : TextRCNN.t)
    (batch len : Z) :
  len <> TextCNN.self_max_seq_len cnn ->
  len <> TextRCNN.self_max_seq_len rcnn ->
  snd (TextCNN.call cnn [batch; len])
  = Keras.Model_call (TextCNN.self_model cnn) [batch; len] /\
  snd (TextCNN.call cnn [batch; len]) <> Raise AssertionError /\
  snd (TextRCNN.call rcnn [batch; len])
  = Keras.Model_call (TextRCNN.self_model rcnn) [batch; len] /\
  snd (TextRCNN.call rcnn [batch; len]) <> Raise AssertionError.
Proof.
  intros _ _. unfold TextCNN.call, TextRCNN.call.
  cbn [List.length Nat.eqb snd].
  repeat split; try reflexivity; apply Model_call_not_AssertionError.
Qed.

Lemma call_checks_the_rank_only_witness :
  snd (TextCNN.call (proj1_sig cnn_small_built) [2; 7])
  = Keras.Model_call (TextCNN.self_model (proj1_sig cnn_small_built)) [2; 7]
  /\
  snd (TextCNN.call (proj1_sig cnn_small_built) [2; 7])
  <> Raise AssertionError /\
  snd (TextRCNN.call (proj1_sig rcnn_small_built) [2; 7])
  = Keras.Model_call (TextRCNN.self_model (proj1_sig rcnn_small_built)) [2; 7]
  /\
  snd (TextRCNN.call (proj1_sig rcnn_small_built) [2; 7])
  <> Raise AssertionError.
Proof.
  apply (call_checks_the_rank_only (proj1_sig cnn_small_built)
           (proj1_sig rcnn_small_built) 2 7).
  - simpl. lia.
  - simpl. lia.
Defined.

(* ================================================================== *)
(** * Further properties of the two constructors *)

(** ** The dense stack *)

Lemma apply_layers_app (l1 l2 : list Keras.layer) (x : Keras.tensor) :
  Utils.apply_layers (l1 ++ l2) x
  = Py.bind (Utils.apply_layers l1 x) (Utils.apply_layers l2).
Proof.
  unfold Utils.apply_layers. revert x.
  induction l1 as [| l rest IH]; intros x; cbn [app foldM].
  - reflexivity.
  - destruct (Keras.call l x) as [x' | e]; cbn [Py.bind].
    + apply IH.
    + reflexivity.
Qed.

Lemma hidden_layers_inv_stack (fw : Keras.framework) (act : string) (dr : Q)
    (prev : Z) (units : list Z) (ls : list Keras.layer) :
  Utils.hidden_layers fw act dr prev units = Ok ls ->
  ls = dense_stack act dr prev units.
Proof.
  revert prev ls. induction units as [| n rest IH]; intros prev ls H.
  - inversion H. reflexivity.
  - cbn [Utils.hidden_layers] in H. cbv zeta in H.
    step H as drop Edrop. step H as more Emore.
    inversion H; subst ls; clear H.
    cbn [dense_stack]. rewrite <- (IH _ _ Emore).
    destruct (Qgtb dr 0).
    + step Edrop as d Ed. inversion Edrop; subst drop.
      unfold Keras.new_Dropout in Ed.
      destruct (Keras.dropout_rate_ok fw dr); [| discriminate].
      inversion Ed. reflexivity.
    + inversion Edrop. reflexivity.
Qed.

(** Fed a vector, the stack never raises, and leaves the trail of
    [dense_trail]. *)
Lemma apply_dense_stack (act : string) (dr : Q) (units : list Z) :
  forall (prev : Z) (x : Keras.tensor) (k : Z),
    Keras.shape_of x = [k] ->
    exists y k',
      Utils.apply_layers (dense_stack act dr prev units) x = Ok y /\
      trail y = trail x ++ dense_trail act dr prev units /\
      Keras.shape_of y = [k'].
Proof.
  induction units as [| n rest IH]; intros prev x k Hx.
  - exists x, k. cbn [dense_stack dense_trail].
    rewrite app_nil_r. repeat split. exact Hx.
  - cbn [dense_stack dense_trail].
    change (Keras.Dense n (Some prev) act
            :: (if Qgtb dr 0 then [Keras.Dropout dr] else [])
               ++ dense_stack act dr n rest)
      with ([Keras.Dense n (Some prev) act]
            ++ (if Qgtb dr 0 then [Keras.Dropout dr] else [])
            ++ dense_stack act dr n rest).
    rewrite !apply_layers_app.
    unfold Utils.apply_layers at 1. cbn [foldM]. unfold Keras.call at 1.
    rewrite Hx. cbn [Keras.output_shape removelast app Py.bind].
    destruct (Qgtb dr 0).
    + unfold Utils.apply_layers at 1. cbn [foldM]. unfold Keras.call at 1.
      cbn [Keras.shape_of Keras.output_shape Py.bind].
      destruct (IH n
                  (Keras.Call (Keras.Dropout dr)
                     (Keras.Call (Keras.Dense n (Some prev) act) x [n]) [n])
                  n eq_refl) as (y & k' & Hy & Ht & Hk).
      exists y, k'. split; [exact Hy | split; [| exact Hk]].
      rewrite Ht. cbn [trail]. rewrite <- !app_assoc. reflexivity.
    + unfold Utils.apply_layers at 1. cbn [foldM Py.bind].
      destruct (IH n (Keras.Call (Keras.Dense n (Some prev) act) x [n])
                  n eq_refl) as (y & k' & Hy & Ht & Hk).
      exists y, k'. split; [exact Hy | split; [| exact Hk]].
      rewrite Ht. cbn [trail]. rewrite <- !app_assoc. reflexivity.
Qed.

Lemma apply_dense_stack_trail (act : string) (dr : Q) (units : list Z)
    (prev : Z) (x y : Keras.tensor) (k : Z) :
  Keras.shape_of x = [k] ->
  Utils.apply_layers (dense_stack act dr prev units) x = Ok y ->
  trail y = trail x ++ dense_trail act dr prev units.
Proof.
  intros Hx Hy.
  destruct (apply_dense_stack act dr units prev x k Hx)
    as (y' & k' & Hy' & Ht & _).
  rewrite Hy in Hy'. inversion Hy'. exact Ht.
Qed.

(** After the merge, the graph of TextCNN is: one Dropout layer when
    [dropout > 0]; then, for each entry [n] of [num_hidden_units] in order, a
    Dense layer of [n] units with the hidden activation, followed by a Dropout
    layer when [dropout > 0]; then the output layer.  The first hidden layer
    declares [input_dim = embedding_dim], each later one the width of the one
    before, while the widths actually flowing are num_filters * |filter_sizes|,
    then each [n], then [num_classes]. *)
Theorem TextCNN_dense_trail (fw : Keras.framework) (a : TextCNN.args)
    (self : TextCNN.t) :
  TextCNN.__init__ fw a = Ok self ->
  trail (Keras.outputs (TextCNN.self_model self))
  = (if Qgtb (TextCNN.dropout a) 0
     then [(Keras.Dropout (TextCNN.dropout a),
            [TextCNN.num_filters a
             * Z.of_nat (List.length (TextCNN.filter_sizes a))])]
     else [])
    ++ dense_trail (TextCNN.hidden_activation a) (TextCNN.dropout a)
         (TextCNN.embedding_dim a) (TextCNN.num_hidden_units a)
    ++ [(Keras.Dense (TextCNN.num_classes a) None
           (if TextCNN.multi_label a then "sigmoid" else "softmax")%string,
         [TextCNN.num_classes a])].
Proof.
  intros H.
  destruct (TextCNN_init_inv fw a self H)
    as (emb & d & hiddens & y & _ & Hhid & _ & _ & _ & Hy & Hmodel).
  cbv zeta in Hy. rewrite Hmodel. cbn [Keras.outputs trail].
  apply hidden_layers_inv_stack in Hhid. subst hiddens.
  rewrite apply_layers_app in Hy.
  replace (if TextCNN.multi_label a then "sigmoid" else "softmax")%string
    with (Utils.output_activation (TextCNN.multi_label a)) by reflexivity.
  rewrite app_assoc. f_equal.
  destruct (Qgtb (TextCNN.dropout a) 0).
  - unfold Utils.apply_layers at 1 in Hy. cbn [foldM] in Hy.
    unfold Keras.call at 1 in Hy.
    cbn [Keras.shape_of Keras.output_shape Py.bind] in Hy.
    eapply apply_dense_stack_trail in Hy; [| reflexivity].
    rewrite Hy. reflexivity.
  - unfold Utils.apply_layers at 1 in Hy. cbn [foldM Py.bind] in Hy.
    eapply apply_dense_stack_trail in Hy; [| reflexivity].
    rewrite Hy. reflexivity.
Qed.

Lemma TextCNN_dense_trail_witness :
  trail (Keras.outputs (TextCNN.self_model (proj1_sig cnn_small_built)))
  = [(Keras.Dropout (1 # 2), [4 * 2]);
     (Keras.Dense 7 (Some 128) "relu"%string, [7]);
     (Keras.Dropout (1 # 2), [7]);
     (Keras.Dense 3 None "sigmoid"%string, [3])].
Proof.
  exact (TextCNN_dense_trail keras_strict cnn_small
           (proj1_sig cnn_small_built) (proj2_sig cnn_small_built)).
Defined.

(** After the concatenation, the graph of TextRCNN is: the kernel-size-1
    convolution, the max over time, then directly the hidden Dense layers in
    the order of [num_hidden_units], each followed by a Dropout layer when
    [dropout > 0], then the output layer; there is no Dropout layer between
    the pooling and the first hidden layer. *)
Theorem TextRCNN_trail (fw : Keras.framework) (a : TextRCNN.args)
    (self : TextRCNN.t) :
  TextRCNN.__init__ fw a = Ok self ->
  trail (Keras.outputs (TextRCNN.self_model self))
  = [(Keras.Conv1D (TextRCNN.conv_hidden_units a) 1 "tanh"%string,
      [TextRCNN.max_seq_len a; TextRCNN.conv_hidden_units a]);
     (Keras.LambdaMax, [TextRCNN.conv_hidden_units a])]
    ++ dense_trail (TextRCNN.hidden_activation a) (TextRCNN.dropout a)
         (TextRCNN.embedding_dim a) (TextRCNN.num_hidden_units a)
    ++ [(Keras.Dense (TextRCNN.num_classes a) None
           (if TextRCNN.multi_label a then "sigmoid" else "softmax")%string,
         [TextRCNN.num_classes a])].
Proof.
  intros H.
  destruct (TextRCNN_init_inv fw a self H)
    as (emb & d & hiddens & y & _ & _ & _ & Hhid & _ & _ & Hy & Hmodel).
  cbv zeta in Hy. rewrite Hmodel. cbn [Keras.outputs trail].
  apply hidden_layers_inv_stack in Hhid. subst hiddens.
  eapply apply_dense_stack_trail in Hy; [| reflexivity].
  rewrite Hy.
  unfold TextRCNN.pooled, TextRCNN.together. cbn [trail app].
  reflexivity.
Qed.

Lemma TextRCNN_trail_witness :
  trail (Keras.outputs (TextRCNN.self_model (proj1_sig rcnn_small_built)))
  = [(Keras.Conv1D 6 1 "tanh"%string, [5; 6]);
     (Keras.LambdaMax, [6]);
     (Keras.Dense 100 (Some 128) "relu"%string, [100]);
     (Keras.Dropout (1 # 2), [100]);
     (Keras.Dense 3 None "sigmoid"%string, [3])].
Proof.
  exact (TextRCNN_trail keras_strict rcnn_small
           (proj1_sig rcnn_small_built) (proj2_sig rcnn_small_built)).
Defined.

(** ** Where dropout layers are *)

Lemma filter_Dropout_dense_stack (act : string) (dr : Q) (prev : Z)
    (units : list Z) :
  filter Keras.is_Dropout (dense_stack act dr prev units)
  = if Qgtb dr 0 then repeat (Keras.Dropout dr) (List.length units) else [].
Proof.
  revert prev. induction units as [| n rest IH]; intros prev.
  - cbn [dense_stack filter List.length repeat].
    destruct (Qgtb dr 0); reflexivity.
  - cbn [dense_stack filter Keras.is_Dropout List.length repeat].
    rewrite filter_app, IH.
    destruct (Qgtb dr 0); reflexivity.
Qed.

Lemma filter_Dropout_branches (a : TextCNN.args) (x : Keras.tensor)
    (ws : list Z) :
  filter Keras.is_Dropout (Keras.layers_of x) = [] ->
  filter Keras.is_Dropout
    (flat_map Keras.layers_of (map (TextCNN.branch a x) ws)) = [].
Proof.
  intros Hx. induction ws as [| w rest IH].
  - reflexivity.
  - cbn [map flat_map]. rewrite filter_app, IH.
    unfold TextCNN.branch. cbn [Keras.layers_of].
    rewrite !filter_app, Hx. reflexivity.
Qed.

(** The Dropout layers of a built graph all carry the [dropout] argument
    unchanged.  With [dropout > 0] TextCNN has one after the merge and one
    after each hidden layer, TextRCNN one after each hidden layer only; with
    [dropout <= 0] neither graph has any. *)
Theorem Dropout_layers (fw : Keras.framework)
    (a : TextCNN.args) (b : TextRCNN.args)
    (cnn : TextCNN.t) (rcnn : TextRCNN.t) :
  TextCNN.__init__ fw a = Ok cnn ->
  TextRCNN.__init__ fw b = Ok rcnn ->
  filter Keras.is_Dropout
    (Keras.layers_of (Keras.outputs (TextCNN.self_model cnn)))
  = (if Qgtb (TextCNN.dropout a) 0
     then repeat (Keras.Dropout (TextCNN.dropout a))
            (S (List.length (TextCNN.num_hidden_units a)))
     else []) /\
  filter Keras.is_Dropout
    (Keras.layers_of (Keras.outputs (TextRCNN.self_model rcnn)))
  = (if Qgtb (TextRCNN.dropout b) 0
     then repeat (Keras.Dropout (TextRCNN.dropout b))
            (List.length (TextRCNN.num_hidden_units b))
     else []).
Proof.
  intros Ha Hb. split.
  - destruct (TextCNN_init_inv fw a cnn Ha)
      as (emb & d & hiddens & y & Hemb & Hhid & _ & _ & _ & Hy & Hmodel).
    cbv zeta in Hy. rewrite Hmodel. cbn [Keras.outputs Keras.layers_of].
    rewrite (apply_layers_layers_of _ _ _ Hy). cbn [Keras.layers_of].
    apply hidden_layers_inv_stack in Hhid. subst hiddens.
    apply init_embedding_layer_inv in Hemb.
    destruct Hemb as (vocab & dim & w & tr & -> & _).
    rewrite !filter_app, filter_Dropout_branches by reflexivity.
    rewrite filter_Dropout_dense_stack.
    destruct (Qgtb (TextCNN.dropout a) 0);
      cbn [filter Keras.is_Dropout app repeat]; rewrite ?app_nil_r;
      reflexivity.
  - destruct (TextRCNN_init_inv fw b rcnn Hb)
      as (emb & d & hiddens & y & Hemb & _ & _ & Hhid & _ & _ & Hy & Hmodel).
    cbv zeta in Hy. rewrite Hmodel. cbn [Keras.outputs Keras.layers_of].
    rewrite (apply_layers_layers_of _ _ _ Hy).
    apply hidden_layers_inv_stack in Hhid. subst hiddens.
    apply init_embedding_layer_inv in Hemb.
    destruct Hemb as (vocab & dim & w & tr & -> & _).
    unfold TextRCNN.pooled, TextRCNN.together.
    cbn [Keras.layers_of flat_map app].
    cbn [filter Keras.is_Dropout].
    rewrite filter_app, filter_Dropout_dense_stack.
    cbn [filter Keras.is_Dropout].
    rewrite app_nil_r. reflexivity.
Qed.

Lemma Dropout_layers_witness :
  filter Keras.is_Dropout
    (Keras.layers_of
       (Keras.outputs (TextCNN.self_model (proj1_sig cnn_small_built))))
  = [Keras.Dropout (1 # 2); Keras.Dropout (1 # 2)] /\
  filter Keras.is_Dropout
    (Keras.layers_of
       (Keras.outputs (TextRCNN.self_model (proj1_sig rcnn_small_built))))
  = [Keras.Dropout (1 # 2)].
Proof.
  exact (Dropout_layers keras_strict cnn_small rcnn_small
           (proj1_sig cnn_small_built) (proj1_sig rcnn_small_built)
           (proj2_sig cnn_small_built) (proj2_sig rcnn_small_built)).
Defined.

(** Without hidden layers TextRCNN never looks at the dropout rate: every
    rate, in or out of range, gives the same outcome and the same graph. *)
Theorem TextRCNN_dropout_unread_without_hidden (fw : Keras.framework)
    (b : TextRCNN.args) (d : Q) :
  TextRCNN.num_hidden_units b = [] ->
  rcnn_model (TextRCNN.__init__ fw (TextRCNN.with_dropout d b))
  = rcnn_model (TextRCNN.__init__ fw b).
Proof.
  intros H.
  unfold rcnn_model, TextRCNN.__init__, TextRCNN.with_dropout.
  cbv zeta. cbn [TextRCNN.num_classes TextRCNN.embedding_dim
    TextRCNN.embedding_matrix TextRCNN.embedding_trainable
    TextRCNN.embedding_vocab_size TextRCNN.rnn_hidden_units
    TextRCNN.conv_hidden_units TextRCNN.pooling_strategy TextRCNN.max_seq_len
    TextRCNN.num_hidden_units TextRCNN.hidden_activation TextRCNN.dropout
    TextRCNN.multi_label].
  rewrite H. cbn [Utils.hidden_layers].
  repeat match goal with
         | |- context [Py.bind ?m _] =>
             destruct m; cbn [Py.bind Py.fmap]; try reflexivity
         end.
Qed.

Lemma TextRCNN_dropout_unread_without_hidden_witness :
  rcnn_model (TextRCNN.__init__ keras_strict
                (TextRCNN.with_dropout (-3) rcnn_no_hidden))
  = rcnn_model (TextRCNN.__init__ keras_strict rcnn_no_hidden).
Proof.
  apply (TextRCNN_dropout_unread_without_hidden keras_strict rcnn_no_hidden).
  reflexivity.
Defined.

(** ** Too few window sizes *)

(** TextCNN cannot be built without window sizes, nor with fewer of them
    than the framework's merge layer takes: nothing would be concatenated. *)
Theorem TextCNN_too_few_filter_sizes (fw : Keras.framework)
    (a : TextCNN.args) :
  TextCNN.filter_sizes a = []
  \/ (List.length (TextCNN.filter_sizes a) < Keras.merge_min_inputs fw)%nat ->
  raises (TextCNN.__init__ fw a).
Proof.
  intros H. destruct (TextCNN.__init__ fw a) as [self | e] eqn:E.
  - exfalso.
    destruct (TextCNN_init_inv fw a self E)
      as (? & ? & ? & ? & _ & _ & _ & Hmin & Hne & _).
    destruct H as [H | H]; [exact (Hne H) | lia].
  - exists e. reflexivity.
Qed.

Lemma TextCNN_too_few_filter_sizes_witness :
  raises (TextCNN.__init__ keras_strict cnn_no_filters).
Proof.
  apply (TextCNN_too_few_filter_sizes keras_strict cnn_no_filters).
  left. reflexivity.
Defined.

(** ** The defaults *)

(** With every parameter but [num_classes] at its default there is no
    embedding matrix and [embedding_trainable] is False, so both constructors
    raise the configuration error, for every number of classes. *)
Theorem defaults_do_not_construct (fw : Keras.framework) (n : Z) :
  (exists msg,
     TextCNN.__init__ fw (TextCNN.defaults n) = Raise (ConfigError msg)) /\
  (exists msg,
     TextRCNN.__init__ fw (TextRCNN.defaults n) = Raise (ConfigError msg)).
Proof.
  split; eexists; reflexivity.
Qed.

(** ** multi_label *)

Lemma call_Dense_activation (units : Z) (d : option Z) (act act' : string)
    (x : Keras.tensor) :
  Keras.call (Keras.Dense units d act') x
  = Py.fmap (fun t => match t with
                      | Keras.Call (Keras.Dense u d0 _) x0 s =>
                          Keras.Call (Keras.Dense u d0 act') x0 s
                      | t0 => t0
                      end)
      (Keras.call (Keras.Dense units d act) x).
Proof.
  unfold Keras.call. destruct (Keras.shape_of x); reflexivity.
Qed.

(** [multi_label] decides the activation of the output layer and nothing
    else: the construction for either value succeeds or fails as for the
    other, and the two graphs differ only in that activation. *)
Theorem multi_label_sets_the_output_activation_only (fw : Keras.framework)
    (a : TextCNN.args) (b : TextRCNN.args) (ml : bool) :
  cnn_model (TextCNN.__init__ fw (with_multi_label_cnn ml a))
  = Py.fmap (set_output_activation (if ml then "sigmoid" else "softmax"))
      (cnn_model (TextCNN.__init__ fw a)) /\
  rcnn_model (TextRCNN.__init__ fw (with_multi_label_rcnn ml b))
  = Py.fmap (set_output_activation (if ml then "sigmoid" else "softmax"))
      (rcnn_model (TextRCNN.__init__ fw b)).
Proof.
  split.
  - unfold cnn_model, TextCNN.__init__, with_multi_label_cnn.
    cbv zeta. cbn [TextCNN.num_classes TextCNN.embedding_dim
      TextCNN.embedding_matrix TextCNN.embedding_trainable
      TextCNN.embedding_vocab_size TextCNN.num_filters TextCNN.filter_sizes
      TextCNN.pooling_strategy TextCNN.max_seq_len TextCNN.num_hidden_units
      TextCNN.hidden_activation TextCNN.dropout TextCNN.multi_label].
    repeat match goal with
           | |- context [Py.bind ?m _] =>
               lazymatch m with
               | Keras.call (Keras.Dense _ None _) _ => fail
               | _ => destruct m; cbn [Py.bind Py.fmap]; try reflexivity
               end
           end.
    match goal with
    | |- context [Keras.call (Keras.Dense ?u None (Utils.output_activation ml)) ?x] =>
        rewrite (call_Dense_activation u None
                   (Utils.output_activation (TextCNN.multi_label a))
                   (Utils.output_activation ml) x)
    end.
    match goal with
    | |- context [Py.bind (Py.fmap _ ?m) _] => destruct m as [t |]
    end; cbn [Py.bind Py.fmap]; [| reflexivity].
    destruct t as [| l x s |]; try reflexivity.
    destruct l; reflexivity.
  - unfold rcnn_model, TextRCNN.__init__, with_multi_label_rcnn.
    cbv zeta. cbn [TextRCNN.num_classes TextRCNN.embedding_dim
      TextRCNN.embedding_matrix TextRCNN.embedding_trainable
      TextRCNN.embedding_vocab_size TextRCNN.rnn_hidden_units
      TextRCNN.conv_hidden_units TextRCNN.pooling_strategy
      TextRCNN.max_seq_len TextRCNN.num_hidden_units
      TextRCNN.hidden_activation TextRCNN.dropout TextRCNN.multi_label].
    repeat match goal with
           | |- context [Py.bind ?m _] =>
               lazymatch m with
               | Keras.call (Keras.Dense _ None _) _ => fail
               | _ => destruct m; cbn [Py.bind Py.fmap]; try reflexivity
               end
           end.
    match goal with
    | |- context [Keras.call (Keras.Dense ?u None (Utils.output_activation ml)) ?x] =>
        rewrite (call_Dense_activation u None
                   (Utils.output_activation (TextRCNN.multi_label b))
                   (Utils.output_activation ml) x)
    end.
    match goal with
    | |- context [Py.bind (Py.fmap _ ?m) _] => destruct m as [t |]
    end; cbn [Py.bind Py.fmap]; [| reflexivity].
    destruct t as [| l x s |]; try reflexivity.
    destruct l; reflexivity.
Qed.
